(** * Bengaluru housing dashboard: the cleaning pipeline and the plot dispatch

    A shallow embedding of [app.py]: the nested function [clean_sqft], the
    BHK derivation, the row filters and the price-per-square-foot column of
    [load_data], and the [if]/[elif] chain that selects one of the five
    plotting functions.

    Conventions of the embedding.
    - A Python [str] is a [string]; its characters are the code points
      below 256.  Among those, [str.isspace] holds for 9-13, 28-32, 133
      and 160, and the only decimal digits are ['0'] to ['9'].
    - A [float] / [numpy.float64] is an IEEE 754 binary64 number, modelled by
      [spec_float] of the standard library with precision 53 and exponent
      bound 1024; NaN is the missing marker of numeric columns.  The
      built-in conversions [float(s)] and [int(s)] are modelled after their
      CPython grammar, [float(s)] rounding the decimal numeral once, to
      nearest even.
    - The frame is the one that [pd.read_csv] returned, so its cells are
      typed.  A cell of [area_type], [size] or [location] is a [str] or the
      missing marker NaN.  A cell of [total_sqft] is a [str] or NaN in a
      column kept as text, an integer or a float in a column read as numbers.
      A cell of [price] is a 64-bit integer, a binary64 float (NaN when
      missing) or, in a column that could not be read as numbers, a [str].
    - An exception is a value of [exn]; code that may raise returns a
      [result].
    - [load_data] is modelled from the frame that [pd.read_csv] returned. *)

From Stdlib Require Import ZArith List String Ascii Bool Lia SpecFloat Reals Lra.
From Stdlib Require Import Permutation Sorted DecimalString.
Import ListNotations.

Local Open Scope string_scope.
Local Open Scope Z_scope.

(** ** Exceptions *)

Inductive exn : Type :=
| ValueError
| IndexError
| TypeError.

Inductive result (A : Type) : Type :=
| Ok (a : A)
| Raise (e : exn).

Arguments Ok {A} a.
Arguments Raise {A} e.

Definition bind {A B : Type} (r : result A) (k : A -> result B) : result B :=
  match r with
  | Ok a => k a
  | Raise e => Raise e
  end.

Notation "x <- r ;; k" := (bind r (fun x => k))
  (at level 61, r at next level, right associativity).

(** [Series.apply] and a list comprehension alike: the function is called on
    the elements in order and the first exception ends the whole call. *)
Fixpoint apply_each {A B : Type} (f : A -> result B) (xs : list A) : result (list B) :=
  match xs with
  | [] => Ok []
  | x :: rest =>
      y <- f x ;;
      ys <- apply_each f rest ;;
      Ok (y :: ys)
  end.

(** ** Python strings *)

Module PyStr.

Definition code (c : ascii) : Z := Z.of_N (N_of_ascii c).

Definition between (lo hi : Z) (c : ascii) : bool :=
  (lo <=? code c) && (code c <=? hi).

(** [str.isspace] on one character. *)
Definition isspace (c : ascii) : bool :=
  between 9 13 c || between 28 32 c || (code c =? 133) || (code c =? 160).

(** The whitespace that [float()] and [int()] skip around a number: the
    ASCII set of [Py_ISSPACE], and the non-ASCII spaces, which the
    conversion first rewrites to [' ']. *)
Definition isspace_num (c : ascii) : bool :=
  between 9 13 c || (code c =? 32) || (code c =? 133) || (code c =? 160).

Definition isdigit (c : ascii) : bool := between 48 57 c.

Definition digit_value (c : ascii) : Z := code c - 48.

Definition lower (c : ascii) : ascii :=
  if between 65 90 c then ascii_of_N (N_of_ascii c + 32) else c.

Fixpoint lower_str (s : string) : string :=
  match s with
  | EmptyString => EmptyString
  | String c t => String (lower c) (lower_str t)
  end.

(** [c in s] for a one-character [c]. *)
Fixpoint has_char (c : ascii) (s : string) : bool :=
  match s with
  | EmptyString => false
  | String d t => Ascii.eqb d c || has_char c t
  end.

(** [s.startswith(p)]. *)
Definition startswith (s p : string) : bool := String.prefix p s.

(** [sub in s]. *)
Fixpoint contains (sub s : string) : bool :=
  String.prefix sub s ||
  match s with
  | EmptyString => false
  | String _ t => contains sub t
  end.

(** [s.split(sep)] for a one-character separator: the pieces between the
    occurrences of [sep], empty pieces included. *)
Fixpoint split (sep : ascii) (s : string) : list string :=
  match s with
  | EmptyString => [EmptyString]
  | String c t =>
      if Ascii.eqb c sep then EmptyString :: split sep t
      else match split sep t with
           | piece :: rest => String c piece :: rest
           | [] => [String c EmptyString]
           end
  end.

(** [xs[0]]. *)
Definition item0 {A : Type} (xs : list A) : result A :=
  match xs with
  | x :: _ => Ok x
  | [] => Raise IndexError
  end.

Fixpoint lstrip_by (sp : ascii -> bool) (s : string) : string :=
  match s with
  | EmptyString => EmptyString
  | String c t => if sp c then lstrip_by sp t else s
  end.

Fixpoint rstrip_by (sp : ascii -> bool) (s : string) : string :=
  match s with
  | EmptyString => EmptyString
  | String c t =>
      match rstrip_by sp t with
      | EmptyString => if sp c then EmptyString else String c EmptyString
      | t' => String c t'
      end
  end.

(** [s.strip()]. *)
Definition strip (s : string) : string := rstrip_by isspace (lstrip_by isspace s).

(** The longest prefix of decimal digits and what follows it. *)
Fixpoint span_digits (s : string) : string * string :=
  match s with
  | EmptyString => (EmptyString, EmptyString)
  | String c t =>
      if isdigit c then let (d, r) := span_digits t in (String c d, r)
      else (EmptyString, s)
  end.

Fixpoint digits_value (acc : Z) (s : string) : Z :=
  match s with
  | EmptyString => acc
  | String c t => digits_value (10 * acc + digit_value c) t
  end.

Definition is_empty (s : string) : bool :=
  match s with
  | EmptyString => true
  | String _ _ => false
  end.

Fixpoint all_chars (p : ascii -> bool) (s : string) : bool :=
  match s with
  | EmptyString => true
  | String c t => p c && all_chars p t
  end.

End PyStr.

(** ** binary64 numbers *)

Module F64.

Definition float : Type := spec_float.

Definition prec : Z := 53.
Definition emax : Z := 1024.

Definition nan : float := S754_nan.
Definition pinf : float := S754_infinity false.

Definition add : float -> float -> float := SFadd prec emax.
Definition mul : float -> float -> float := SFmul prec emax.
Definition div : float -> float -> float := SFdiv prec emax.
Definition ltb : float -> float -> bool := SFltb.

(** Conversion of an integer, rounding to nearest even. *)
Definition of_Z (z : Z) : float := binary_normalize prec emax z 0 false.

Definition isnan (x : float) : bool :=
  match x with
  | S754_nan => true
  | _ => false
  end.

Definition isfinite (x : float) : bool :=
  match x with
  | S754_zero _ | S754_finite _ _ _ => true
  | _ => false
  end.

(** The sign bit; NaN carries none in this model. *)
Definition sign (x : float) : option bool :=
  match x with
  | S754_zero s | S754_infinity s | S754_finite s _ _ => Some s
  | S754_nan => None
  end.

(** The factor [-1] or [1] that a sign bit stands for. *)
Definition sg (b : bool) : R := if b then (-1)%R else 1%R.

(** The real number that a finite float stands for (0 for the others). *)
Definition to_R (x : float) : R :=
  match x with
  | S754_finite s m e => (sg s * (IZR (Zpos m) * powerRZ 2 e))%R
  | _ => 0%R
  end.

(** A finite float with a full 53-bit significand, so neither zero nor
    subnormal. *)
Definition isnormal (x : float) : bool :=
  match x with
  | S754_finite _ m _ => Zpos (digits2_pos m) =? prec
  | _ => false
  end.

(** The number [(-1)^neg * m * 10^e] for an integer [m >= 0], rounded
    once to nearest even: the quotient of two integers, which [SFdiv]
    rounds correctly whatever their size.  Too large a value gives an
    infinity and too small a one a zero, as [float()] does. *)
Definition of_decimal (neg : bool) (m e : Z) : float :=
  match m with
  | Zpos p =>
      div (S754_finite neg (Z.to_pos (Zpos p * 10 ^ Z.max e 0)) 0)
          (S754_finite false (Z.to_pos (10 ^ Z.max (- e) 0)) 0)
  | _ => S754_zero neg
  end.

End F64.

Abbreviation float := F64.float.

(** ** The conversions [float(s)] and [int(s)] of a string *)

Module PyNum.
Import PyStr.

(** Underscores may only stand between two digits; they are removed
    before the number is read.  [prev] is the previous character. *)
Fixpoint drop_underscores (prev : ascii) (s : string) : result string :=
  match s with
  | EmptyString =>
      if Ascii.eqb prev "_" then Raise ValueError else Ok EmptyString
  | String c t =>
      if Ascii.eqb c "_" then
        if isdigit prev then drop_underscores c t else Raise ValueError
      else if Ascii.eqb prev "_" && negb (isdigit c) then Raise ValueError
      else
        t' <- drop_underscores c t ;;
        Ok (String c t')
  end.

(** An optional sign in front of [s]: whether it is ['-'], and the rest. *)
Definition take_sign (s : string) : bool * string :=
  match s with
  | String c t =>
      if Ascii.eqb c "-" then (true, t)
      else if Ascii.eqb c "+" then (false, t)
      else (false, s)
  | EmptyString => (false, s)
  end.

(** ["inf"], ["infinity"] and ["nan"] in any letter case. *)
Definition inf_or_nan (neg : bool) (s : string) : option float :=
  let l := lower_str s in
  if String.eqb l "inf" || String.eqb l "infinity" then Some (S754_infinity neg)
  else if String.eqb l "nan" then Some F64.nan
  else None.

(** The exponent part: nothing, or [e]/[E], an optional sign and at least
    one digit, up to the end of the string. *)
Definition exponent (s : string) : result Z :=
  match s with
  | EmptyString => Ok 0
  | String c t =>
      if Ascii.eqb (lower c) "e" then
        let (eneg, t') := take_sign t in
        let (ds, rest) := span_digits t' in
        if is_empty ds || negb (is_empty rest) then Raise ValueError
        else Ok (if eneg then - digits_value 0 ds else digits_value 0 ds)
      else Raise ValueError
  end.

(** A decimal numeral: digits with at most one point among them, at least
    one digit, then the exponent part. *)
Definition decimal (neg : bool) (s : string) : result float :=
  let (ip, r1) := span_digits s in
  let (fp, r2) :=
    match r1 with
    | String c t => if Ascii.eqb c "." then span_digits t else (EmptyString, r1)
    | EmptyString => (EmptyString, r1)
    end in
  if is_empty ip && is_empty fp then Raise ValueError
  else
    e <- exponent r2 ;;
    Ok (F64.of_decimal neg (digits_value 0 (ip ++ fp)) (e - Z.of_nat (String.length fp))).

(** [float(s)] for a string [s]; [ValueError] where Python raises it. *)
Definition py_float (s : string) : result float :=
  s1 <- (if has_char "_" s then drop_underscores zero s else Ok s) ;;
  let s2 := rstrip_by isspace_num (lstrip_by isspace_num s1) in
  let (neg, body) := take_sign s2 in
  match inf_or_nan neg body with
  | Some x => Ok x
  | None => decimal neg body
  end.

(** The digits of an integer literal, single underscores allowed between
    them; returns the value read, the number of digits and the rest. *)
Fixpoint int_digits (prev : ascii) (acc : Z) (n : nat) (s : string)
  : result (Z * nat * string) :=
  match s with
  | String c t =>
      if Ascii.eqb c "_" then
        if Ascii.eqb prev "_" then Raise ValueError
        else int_digits c acc n t
      else if isdigit c then int_digits c (10 * acc + digit_value c) (S n) t
      else if Ascii.eqb prev "_" then Raise ValueError
      else Ok (acc, n, s)
  | EmptyString =>
      if Ascii.eqb prev "_" then Raise ValueError else Ok (acc, n, s)
  end.

(** [int(s)] for a string [s], base ten.  (The interpreter's configurable
    limit on the length of very long literals is not part of the model.) *)
Definition py_int (s : string) : result Z :=
  let (neg, body) := take_sign (lstrip_by isspace_num s) in
  match body with
  | String c _ =>
      if Ascii.eqb c "_" then Raise ValueError
      else
        r <- int_digits zero 0 0%nat body ;;
        let '(v, n, rest) := r in
        if (Nat.eqb n 0) || negb (all_chars isspace_num rest) then Raise ValueError
        else Ok (if neg then - v else v)
  | EmptyString => Raise ValueError
  end.

(** [str(n)] of an integer: its decimal digits, with a minus sign when
    negative. *)
Definition py_str_int (n : Z) : string := NilZero.string_of_int (Z.to_int n).

End PyNum.

(** ** The data frame *)

Module Frame.
Import PyStr PyNum.

(** A cell of a text column. *)
Inductive cell : Type :=
| CStr (s : string)
| CNaN.

(** [str(x)] of a cell. *)
Definition py_str (x : cell) : string :=
  match x with
  | CStr s => s
  | CNaN => "nan"
  end.

(** [pandas.isna] on a text cell and its negation. *)
Definition isna (x : cell) : bool :=
  match x with
  | CStr _ => false
  | CNaN => true
  end.

Definition notna (x : cell) : bool := negb (isna x).

(** A cell of the column [total_sqft]: a text or NaN where the column was
    kept as text; an integer or a float where it was read as numbers.  A
    float cell comes with the text that [str()] gives for it (Python prints
    the shortest digits that read back as the same float); the program uses
    nothing else of it. *)
Inductive sqft_cell : Type :=
| QStr (s : string)
| QNaN
| QInt (n : Z)
| QFloat (f : float) (shown : string).

(** [str(x)] of a [total_sqft] cell. *)
Definition sqft_str (x : sqft_cell) : string :=
  match x with
  | QStr s => s
  | QNaN => "nan"
  | QInt n => py_str_int n
  | QFloat _ shown => shown
  end.

(** A cell of the column [price]: a 64-bit integer [n], between [-2^63]
    and [2^63 - 1], where every price of the file is an integer; a float
    (NaN when missing) where the column was read as floats; a text, or the
    float NaN, where the column could not be read as numbers.  The dtype
    belongs to the column, so the cells of one table are of one kind. *)
Inductive price_cell : Type :=
| PInt (n : Z)
| PFloat (f : float)
| PStr (s : string).

Definition price_isna (p : price_cell) : bool :=
  match p with
  | PFloat f => F64.isnan f
  | _ => false
  end.

(** A value of the derived column [BHK]: the Python [int] returned by the
    lambda, or NaN.  (Where the column holds a NaN pandas stores the
    integers as binary64 numbers, exactly up to 2^53; the comparison with
    10 is the same.) *)
Inductive bhk_val : Type :=
| BInt (n : Z)
| BNaN.

Definition bhk_notna (b : bhk_val) : bool :=
  match b with
  | BInt _ => true
  | BNaN => false
  end.

(** [b < k] as pandas compares a column with an integer: false on NaN. *)
Definition bhk_lt (b : bhk_val) (k : Z) : bool :=
  match b with
  | BInt n => n <? k
  | BNaN => false
  end.

(** A row of the frame as [pd.read_csv] returns it: the five columns
    that the program reads. *)
Record raw_row : Type := mk_raw {
  raw_area_type : cell;
  raw_size : cell;
  raw_total_sqft : sqft_cell;
  raw_price : price_cell;
  raw_location : cell
}.

(** A row once [total_sqft] has been replaced by its cleaned value. *)
Record sqft_row : Type := mk_sqft {
  area_type : cell;
  size : cell;
  total_sqft : float;
  price : price_cell;
  location : cell
}.

(** ... with the column [BHK] added. *)
Record bhk_row : Type := mk_bhk {
  base : sqft_row;
  BHK : bhk_val
}.

(** ... with the column [price_per_sqft] added. *)
Record clean_row : Type := mk_clean {
  cols : bhk_row;
  price_per_sqft : float
}.

End Frame.

(** ** [load_data] *)

Module Loader.
Import PyStr PyNum Frame.

(** [try: ... except: return h]. *)
Definition try_except {A : Type} (body : result A) (h : A) : A :=
  match body with
  | Ok v => v
  | Raise _ => h
  end.

(** *** [np.mean]

    NumPy adds the elements of a float array with its pairwise summation
    routine: fewer than eight elements are added one after the other; up
    to 128 elements are added into eight running sums that are then
    combined in pairs, the elements left over being added at the end;
    a longer array is cut in two and the halves are summed the same way. *)

(** [res += a[i]] over [xs]. *)
Definition add_all (res : float) (xs : list float) : float :=
  fold_left F64.add xs res.

(** [r[j] += a[i + j]] for the eight running sums [r]. *)
Definition add_lists (r a : list float) : list float :=
  map (fun ra => F64.add (fst ra) (snd ra)) (combine r a).

(** The unrolled loop: while eight elements are left, each running sum
    takes one of them.  Returns the running sums and the elements left
    over.  [fuel] bounds the number of rounds. *)
Fixpoint unrolled (fuel : nat) (r rest : list float) : list float * list float :=
  match fuel with
  | O => (r, rest)
  | S fuel' =>
      if (8 <=? List.length rest)%nat
      then unrolled fuel' (add_lists r (firstn 8 rest)) (skipn 8 rest)
      else (r, rest)
  end.

(** [((r[0] + r[1]) + (r[2] + r[3])) + ((r[4] + r[5]) + (r[6] + r[7]))]. *)
Definition combine8 (r : list float) : float :=
  match r with
  | [r0; r1; r2; r3; r4; r5; r6; r7] =>
      F64.add (F64.add (F64.add r0 r1) (F64.add r2 r3))
              (F64.add (F64.add r4 r5) (F64.add r6 r7))
  | _ => F64.nan
  end.

(** The summation routine; [fuel] bounds the depth of the halving. *)
Fixpoint pairwise_sum (fuel : nat) (a : list float) : float :=
  let n := List.length a in
  if (n <? 8)%nat then add_all (S754_zero false) a
  else if (n <=? 128)%nat then
    let (r, rest) := unrolled n (firstn 8 a) (skipn 8 a) in
    add_all (combine8 r) rest
  else
    match fuel with
    | O => F64.nan
    | S fuel' =>
        let n2 := (n / 2 - (n / 2) mod 8)%nat in
        F64.add (pairwise_sum fuel' (firstn n2 a))
                (pairwise_sum fuel' (skipn n2 a))
    end.

(** [np.mean] of a list of floats: the sum, started at 0.0, over the
    number of elements.  (NumPy versions differ in the sign of the zero
    they start from; that shows only when every element is [-0.0].) *)
Definition np_mean (xs : list float) : float :=
  F64.div (F64.add (S754_zero false) (pairwise_sum (List.length xs) xs))
          (F64.of_Z (Z.of_nat (List.length xs))).

(** *** The cleaning steps *)

(** The nested function [clean_sqft]. *)
Definition clean_sqft (x : sqft_cell) : float :=
  try_except
    (match x with
     | QStr s =>
         if has_char "-" s then
           parts <- apply_each (fun p => py_float (strip p)) (split "-" s) ;;
           Ok (np_mean parts)
         else
           tok <- item0 (split " " (sqft_str x)) ;;
           py_float tok
     | _ =>
         tok <- item0 (split " " (sqft_str x)) ;;
         py_float tok
     end)
    F64.nan.

(** The lambda applied to the column [size]. *)
Definition derive_bhk (x : cell) : result bhk_val :=
  match x with
  | CStr s =>
      if contains "BHK" s || contains "Bedroom" s then
        tok <- item0 (split " " s) ;;
        n <- py_int tok ;;
        Ok (BInt n)
      else Ok BNaN
  | CNaN => Ok BNaN
  end.

(** [df['total_sqft'] = df['total_sqft'].apply(clean_sqft)]. *)
Definition with_sqft (r : raw_row) : sqft_row :=
  mk_sqft (raw_area_type r) (raw_size r) (clean_sqft (raw_total_sqft r))
          (raw_price r) (raw_location r).

(** [df['BHK'] = df['size'].apply(lambda ...)], one row. *)
Definition with_bhk (r : sqft_row) : result bhk_row :=
  b <- derive_bhk (size r) ;;
  Ok (mk_bhk r b).

(** The rows kept by
    [df.dropna(subset=['BHK', 'total_sqft', 'price', 'location'])]. *)
Definition critical_notna (r : bhk_row) : bool :=
  bhk_notna (BHK r)
  && negb (F64.isnan (total_sqft (base r)))
  && negb (price_isna (price (base r)))
  && notna (location (base r)).

(** 64-bit two's complement wrap-around, as NumPy multiplies an [int64]
    column. *)
Definition wrap64 (z : Z) : Z := (z + 2 ^ 63) mod 2 ^ 64 - 2 ^ 63.

(** [(price * 100000) / total_sqft] for one row.  On an integer column the
    product is a 64-bit integer, converted to a float for the division; on
    a float column it is a float product; on a text column the product is
    the text repeated and the division raises TypeError. *)
Definition per_sqft (p : price_cell) (sqft : float) : result float :=
  match p with
  | PInt n => Ok (F64.div (F64.of_Z (wrap64 (n * 100000))) sqft)
  | PFloat f => Ok (F64.div (F64.mul f (F64.of_Z 100000)) sqft)
  | PStr _ => Raise TypeError
  end.

(** [df['price_per_sqft'] = (df['price'] * 100000) / df['total_sqft']],
    one row. *)
Definition with_price_per_sqft (r : bhk_row) : result clean_row :=
  v <- per_sqft (price (base r)) (total_sqft (base r)) ;;
  Ok (mk_clean r v).

(** [load_data], from the frame that [pd.read_csv] returned. *)
Definition load_data (df : list raw_row) : result (list clean_row) :=
  let df1 := map with_sqft df in
  let df2 := filter (fun r => notna (size r)) df1 in
  df3 <- apply_each with_bhk df2 ;;
  let df4 := filter critical_notna df3 in
  df5 <- apply_each with_price_per_sqft df4 ;;
  Ok (filter (fun r => bhk_lt (BHK (cols r)) 10) df5).

End Loader.

(** ** The dashboard *)

Module Dashboard.
Import PyStr Frame.

Inductive plot : Type :=
| PriceDistribution
| BhkVsPrice
| TopLocations
| ScatterSqftPrice
| AreaTypeDistribution.

(** What a run of the script puts on the page, in order: the headers
    and the figures handed to [st.pyplot], each figure named by its kind
    and the frame it was drawn from. *)
Inductive ui_event : Type :=
| Header (text : string)
| Pyplot (p : plot) (data : list clean_row).

Definition page : Type := list ui_event.

Section Plots.
Variable df_clean : list clean_row.

Definition plot_1_price_distribution (out : page) : page :=
  (out ++ [Header "1. Property Price Distribution (Lakhs)";
          Pyplot PriceDistribution df_clean])%list.

Definition plot_2_bhk_vs_price (out : page) : page :=
  (out ++ [Header "2. Price vs. Number of Bedrooms (BHK)";
          Pyplot BhkVsPrice df_clean])%list.

Definition plot_3_top_locations (out : page) : page :=
  (out ++ [Header "3. Top 10 Locations by Property Count";
          Pyplot TopLocations df_clean])%list.

Definition plot_4_scatter_sqft_price (out : page) : page :=
  (out ++ [Header "4. Total Square Footage vs. Price";
          Pyplot ScatterSqftPrice df_clean])%list.

Definition plot_5_area_type_distribution (out : page) : page :=
  (out ++ [Header "5. Area Type Distribution";
          Pyplot AreaTypeDistribution df_clean])%list.

(** The [if]/[elif] chain on [selected_plot]; it has no [else]. *)
Definition display_selected_plot (selected_plot : string) (out : page) : page :=
  if startswith selected_plot "1" then plot_1_price_distribution out
  else if startswith selected_plot "2" then plot_2_bhk_vs_price out
  else if startswith selected_plot "3" then plot_3_top_locations out
  else if startswith selected_plot "4" then plot_4_scatter_sqft_price out
  else if startswith selected_plot "5" then plot_5_area_type_distribution out
  else out.

End Plots.

End Dashboard.

(** ** Definitions used to state the properties *)

Module Props.
Import PyStr PyNum Frame Loader Dashboard.

(** The part of [s] before the first occurrence of the character [c]
    (all of [s] when [c] does not occur). *)
Fixpoint before_first (c : ascii) (s : string) : string :=
  match s with
  | EmptyString => EmptyString
  | String d t => if Ascii.eqb d c then EmptyString else String d (before_first c t)
  end.

(** The specification's reading of the second parsing rule: "the
    substring before the first whitespace character", for any character
    that [str.isspace] accepts. *)
Fixpoint spec_first_token (s : string) : string :=
  match s with
  | EmptyString => EmptyString
  | String d t => if isspace d then EmptyString else String d (spec_first_token t)
  end.

(** The specification's second parsing rule as a function. *)
Definition spec_clean_plain (s : string) : float :=
  try_except (py_float (spec_first_token s)) F64.nan.

(** A float that is not NaN and whose sign bit is clear: [+0.0], a
    positive finite number or [+inf]. *)
Definition nonneg (x : float) : Prop := F64.sign x = Some false.

(** NaN, or a float whose sign bit is clear. *)
Definition not_negative (x : float) : Prop := F64.sign x <> Some true.

(** The cleaned row [c] comes from the raw row [r]: same text and price
    columns, [total_sqft] cleaned, [BHK] the value the lambda returned on
    [size], and [price_per_sqft] as the program computes it. *)
Definition derived_from (r : raw_row) (c : clean_row) : Prop :=
  base (cols c) = with_sqft r
  /\ derive_bhk (raw_size r) = Ok (BHK (cols c))
  /\ with_price_per_sqft (cols c) = Ok c.

(** The guard [isinstance(x, str) and '-' in x] of [clean_sqft]. *)
Definition is_range (x : sqft_cell) : bool :=
  match x with
  | QStr s => has_char "-" s
  | _ => false
  end.

(** The guard [isinstance(x, str) and (('BHK' in x) or ('Bedroom' in x))]
    of the lambda applied to [size]. *)
Definition mentions_bedrooms (x : cell) : bool :=
  match x with
  | CStr s => contains "BHK" s || contains "Bedroom" s
  | CNaN => false
  end.

(** [x] is within the relative tolerance [tol] of [y]: both are numbers,
    equal when infinite, and otherwise [|x - y| <= tol * |y|]. *)
Definition within_tolerance (tol : R) (x y : float) : Prop :=
  match x, y with
  | S754_nan, _ | _, S754_nan => False
  | S754_infinity s, S754_infinity s' => s = s'
  | S754_infinity _, _ | _, S754_infinity _ => False
  | _, _ => (Rabs (F64.to_R x - F64.to_R y) <= tol * Rabs (F64.to_R y))%R
  end.

(** The product [price * 100000] of a row as the program computes it,
    taken as a float (NaN for a text, which no kept row has), and the
    product [price_per_sqft * total_sqft] that should give it back. *)
Definition price_in_units (c : clean_row) : float :=
  match price (base (cols c)) with
  | PInt n => F64.of_Z (wrap64 (n * 100000))
  | PFloat f => F64.mul f (F64.of_Z 100000)
  | PStr _ => F64.nan
  end.

Definition round_trip (c : clean_row) : float :=
  F64.mul (price_per_sqft c) (total_sqft (base (cols c))).

(** The cleaned row that the raw row [r] gives when its BHK is [n]. *)
Definition expected_row (r : raw_row) (n : Z) : clean_row :=
  mk_clean (mk_bhk (with_sqft r) (BInt n))
           (try_except (per_sqft (raw_price r) (clean_sqft (raw_total_sqft r)))
                       F64.nan).

(** The two-row table of the end-to-end scenario, as [pd.read_csv] types
    it (text [total_sqft], integer [price]), and the cleaned row that its
    first row gives. *)
Definition scenario_first : raw_row :=
  mk_raw (CStr "Super built-up") (CStr "2 BHK") (QStr "1000 - 1200")
         (PInt 50) (CStr "X").

Definition scenario : list raw_row :=
  [ scenario_first;
    mk_raw (CStr "Plot") (CStr "Studio") (QStr "500") (PInt 20) (CStr "Y") ].

Definition scenario_cleaned : clean_row := expected_row scenario_first 2.

(** The row under test: the given [size] and [total_sqft] texts, a price
    of 50 and the other columns filled in. *)
Definition test_row (size_text sqft_text : string) : raw_row :=
  mk_raw (CStr "Plot") (CStr size_text) (QStr sqft_text) (PInt 50) (CStr "X").

(** A two-row table: the first row of the scenario, whose range keeps the
    column [total_sqft] a text column, then the row under test. *)
Definition table_with (size_text sqft_text : string) : list raw_row :=
  [ scenario_first; test_row size_text sqft_text ].

(** The cleaned row that the row under test gives when its BHK is [n]. *)
Definition test_cleaned (size_text sqft_text : string) (n : Z) : clean_row :=
  expected_row (test_row size_text sqft_text) n.

(** A table whose [total_sqft] column holds only integers, one of them
    negative, so that it is read as numbers. *)
Definition numeric_row (sqft : Z) : raw_row :=
  mk_raw (CStr "Plot") (CStr "2 BHK") (QInt sqft) (PInt 50) (CStr "X").

Definition numeric_table : list raw_row := [ numeric_row 1200; numeric_row (-5) ].

(** A table with an integer price whose product with 100000 does not fit
    in 64 bits. *)
Definition big_price_row : raw_row :=
  mk_raw (CStr "Plot") (CStr "2 BHK") (QStr "1000") (PInt 92233720368548)
         (CStr "X").

Definition big_price_table : list raw_row := [ scenario_first; big_price_row ].

(** A table with a price column of floats: a price of 1e303 for a
    total_sqft of 0.001. *)
Definition huge_price_row : raw_row :=
  mk_raw (CStr "Plot") (CStr "2 BHK") (QStr "0.001")
         (PFloat (F64.of_decimal false 1 303)) (CStr "X").

Definition huge_price_table : list raw_row := [ huge_price_row ].

(** A row with a price of 0. *)
Definition free_row : raw_row :=
  mk_raw (CStr "Plot") (CStr "2 BHK") (QStr "1200") (PInt 0) (CStr "X").

(** The branches of the [if]/[elif] chain, in the order of the source:
    the prefix tested and the function called. *)
Definition branches (df_clean : list clean_row) : list (string * (page -> page)) :=
  [ ("1", plot_1_price_distribution df_clean);
    ("2", plot_2_bhk_vs_price df_clean);
    ("3", plot_3_top_locations df_clean);
    ("4", plot_4_scatter_sqft_price df_clean);
    ("5", plot_5_area_type_distribution df_clean) ].

(** Try the given branches from the first to the last and run the first
    whose prefix matches; do nothing when none matches. *)
Fixpoint first_match (bs : list (string * (page -> page)))
         (selected_plot : string) (out : page) : page :=
  match bs with
  | [] => out
  | (p, f) :: rest =>
      if startswith selected_plot p then f out
      else first_match rest selected_plot out
  end.

(** The charts on a page, in order. *)
Definition charts (out : page) : list plot :=
  flat_map (fun ev => match ev with Pyplot p _ => [p] | Header _ => [] end) out.

(** The one-character prefixes of the five branches. *)
Definition plot_ids : list string := ["1"; "2"; "3"; "4"; "5"].

End Props.

(** ** The data behind the charts and the options of the selector *)

Module Charts.
Import PyStr Frame Dashboard.

(** The options handed to [st.sidebar.selectbox]; the widget returns one
    of them. *)
Definition plot_options : list string :=
  [ "1. Price Distribution";
    "2. Price vs. Size (BHK)";
    "3. Top 10 Locations by Count";
    "4. Price vs. Square Footage";
    "5. Area Type Distribution" ].

(** The texts of a column without its missing cells, as [value_counts]
    sees it with its default [dropna=True]. *)
Definition present (col : list cell) : list string :=
  flat_map (fun x => match x with CStr s => [s] | CNaN => [] end) col.

(** How often [k] occurs in [xs]. *)
Definition occurrences (k : string) (xs : list string) : nat :=
  List.length (filter (String.eqb k) xs).

(** The distinct values of [xs] in the order of their first appearance,
    [seen] being the values met so far. *)
Fixpoint uniques_from (seen xs : list string) : list string :=
  match xs with
  | [] => []
  | x :: rest =>
      if existsb (String.eqb x) seen then uniques_from seen rest
      else x :: uniques_from (x :: seen) rest
  end.

Definition uniques (xs : list string) : list string := uniques_from [] xs.

(** The distinct values of a column with their frequencies, before they
    are sorted. *)
Definition value_count (col : list cell) : list (string * nat) :=
  map (fun k => (k, occurrences k (present col))) (uniques (present col)).

(** [Series.value_counts()]: the frequencies sorted in descending order.
    pandas sorts with [sort_values(ascending=False)] and does not fix the
    order of equal counts, so the sorting function is a parameter. *)
Definition value_counts (sort_values : list (string * nat) -> list (string * nat))
           (col : list cell) : list (string * nat) :=
  sort_values (value_count col).

Section ChartData.
Variable sort_values : list (string * nat) -> list (string * nat).
Variable df_clean : list clean_row.

(** [df_clean['location'].value_counts().head(10)] of
    [plot_3_top_locations]: the bars, label and height. *)
Definition top_locations : list (string * nat) :=
  firstn 10 (value_counts sort_values (map (fun c => location (base (cols c))) df_clean)).

(** [df_clean['area_type'].value_counts()] of
    [plot_5_area_type_distribution]: the wedges, label and size. *)
Definition area_counts : list (string * nat) :=
  value_counts sort_values (map (fun c => area_type (base (cols c))) df_clean).

(** [sns.color_palette('pastel')[0:len(area_counts)]], for the palette
    that seaborn returns. *)
Definition pie_colors {color : Type} (palette : list color) : list color :=
  firstn (List.length area_counts) palette.

End ChartData.

End Charts.

(** ** Further definitions used to state properties *)

Module MoreProps.
Import PyStr PyNum Frame Loader Dashboard Props Charts.

(** [l1] is [l2] with some elements left out, the others in their order. *)
Inductive subseq {A : Type} : list A -> list A -> Prop :=
| subseq_nil : subseq [] []
| subseq_skip (x : A) (l1 l2 : list A) : subseq l1 l2 -> subseq l1 (x :: l2)
| subseq_keep (x : A) (l1 l2 : list A) : subseq l1 l2 -> subseq (x :: l1) (x :: l2).

(** The cleaned row that the raw row [r] gives when its BHK is [n]. *)
Definition cleaned_as (r : raw_row) (n : Z) : clean_row := expected_row r n.

(** The row passes both [dropna], so that the division of line 37 is
    computed on it. *)
Definition reaches_division (r : raw_row) : bool :=
  match derive_bhk (raw_size r) with
  | Ok b => critical_notna (mk_bhk (with_sqft r) b)
  | Raise _ => false
  end.

(** The price of the row is a text. *)
Definition text_price (r : raw_row) : bool :=
  match raw_price r with
  | PStr _ => true
  | _ => false
  end.

(** A table whose price column was read as text. *)
Definition text_price_table : list raw_row :=
  [ mk_raw (CStr "Plot") (CStr "2 BHK") (QStr "1200") (PStr "50 lakh") (CStr "X") ].

(** The number of cells of a column that hold the text [k]. *)
Definition count_cells (k : string) (col : list cell) : nat :=
  List.length (filter (fun x => match x with
                                | CStr s => String.eqb k s
                                | CNaN => false
                                end) col).

(** The columns that the two counting charts read. *)
Definition locations (df_clean : list clean_row) : list cell :=
  map (fun c => location (base (cols c))) df_clean.

Definition area_types (df_clean : list clean_row) : list cell :=
  map (fun c => area_type (base (cols c))) df_clean.

(** [a] stands before [b] in a descending order of counts. *)
Definition count_ge (a b : string * nat) : Prop := (snd b <= snd a)%nat.

(** What any sorting in descending order of counts does: it rearranges
    the list and leaves the counts descending. *)
Definition sorts_descending
           (sort_values : list (string * nat) -> list (string * nat)) : Prop :=
  forall l, Permutation.Permutation (sort_values l) l
            /\ Sorted.StronglySorted count_ge (sort_values l).

(** One such sorting, by insertion; equal counts keep their order. *)
Fixpoint insert_desc (a : string * nat) (l : list (string * nat)) : list (string * nat) :=
  match l with
  | [] => [a]
  | b :: rest =>
      if (snd a <? snd b)%nat then b :: insert_desc a rest else a :: l
  end.

Fixpoint insertion_sort (l : list (string * nat)) : list (string * nat) :=
  match l with
  | [] => []
  | a :: rest => insert_desc a (insertion_sort rest)
  end.

(** A cleaned table with one row for each given location and area type. *)
Definition rows_of (places : list (string * cell)) : list clean_row :=
  map (fun la =>
         mk_clean (mk_bhk (mk_sqft (snd la) (CStr "2 BHK") (F64.of_Z 1000)
                                   (PInt 50) (CStr (fst la)))
                          (BInt 2))
                  (F64.of_Z 5000))
      places.

(** Four rows in three locations and two area types, one area type
    missing. *)
Definition sample_rows : list clean_row :=
  rows_of [ ("Whitefield", CStr "Plot"); ("Hebbal", CStr "Plot");
            ("Whitefield", CNaN); ("Yelahanka", CStr "Built-up") ].

(** Twelve rows in eleven locations: two rows at the first location, one
    at each of the others. *)
Definition crowded_rows : list clean_row :=
  rows_of (map (fun l => (l, CStr "Plot"))
               [ "Whitefield"; "Hebbal"; "Whitefield"; "Yelahanka"; "Sarjapur";
                 "Thanisandra"; "Uttarahalli"; "Kanakpura"; "Hennur";
                 "Bellandur"; "Marathahalli"; "Electronic City" ]).

End MoreProps.

Import PyStr PyNum Frame Loader Dashboard Props Charts MoreProps.

(** * Properties *)

(** ** Strings *)

Lemma split_not_nil (sep : ascii) (s : string) : split sep s <> [].
Proof.
  induction s as [|c t IH]; simpl.
  - discriminate.
  - destruct (Ascii.eqb c sep); [discriminate|].
    destruct (split sep t); [contradiction | discriminate].
Qed.

Lemma item0_split (sep : ascii) (s : string) :
  item0 (split sep s) = Ok (before_first sep s).
Proof.
  induction s as [|c t IH]; simpl; [reflexivity|].
  destruct (Ascii.eqb c sep); [reflexivity|].
  destruct (split sep t) as [|piece rest] eqn:E.
  - exfalso. exact (split_not_nil sep t E).
  - simpl in *. congruence.
Qed.

Lemma split_no_sep (sep : ascii) (s : string) :
  has_char sep s = false -> split sep s = [s].
Proof.
  induction s as [|c t IH]; simpl; intros H; [reflexivity|].
  apply orb_false_iff in H as [Hc Ht].
  rewrite Hc, (IH Ht). reflexivity.
Qed.

Lemma split_app (sep : ascii) (a b : string) :
  has_char sep a = false ->
  split sep (a ++ String sep b) = a :: split sep b.
Proof.
  induction a as [|c t IH]; simpl; intros H.
  - rewrite Ascii.eqb_refl. reflexivity.
  - apply orb_false_iff in H as [Hc Ht].
    rewrite Hc, (IH Ht). reflexivity.
Qed.

Lemma split_pieces_no_sep (sep : ascii) (s : string) :
  Forall (fun p => has_char sep p = false) (split sep s).
Proof.
  induction s as [|c t IH]; simpl.
  - constructor; [reflexivity | constructor].
  - destruct (Ascii.eqb c sep) eqn:E.
    + constructor; [reflexivity | exact IH].
    + destruct (split sep t) as [|piece rest].
      * constructor; [simpl; rewrite E; reflexivity | constructor].
      * inversion IH; subst. constructor; [|assumption].
        simpl. rewrite E. assumption.
Qed.

Lemma has_char_app (c : ascii) (a b : string) :
  has_char c (a ++ b) = has_char c a || has_char c b.
Proof.
  induction a as [|d t IH]; simpl; [reflexivity|].
  rewrite IH, orb_assoc. reflexivity.
Qed.

Lemma lstrip_by_no_char (sp : ascii -> bool) (c : ascii) (s : string) :
  has_char c s = false -> has_char c (lstrip_by sp s) = false.
Proof.
  induction s as [|d t IH]; simpl; intros H; [reflexivity|].
  destruct (sp d); [|exact H].
  apply orb_false_iff in H as [_ Ht]. auto.
Qed.

Lemma rstrip_by_no_char (sp : ascii -> bool) (c : ascii) (s : string) :
  has_char c s = false -> has_char c (rstrip_by sp s) = false.
Proof.
  induction s as [|d t IH]; simpl; intros H; [reflexivity|].
  apply orb_false_iff in H as [Hd Ht].
  specialize (IH Ht).
  destruct (rstrip_by sp t) as [|e u].
  - destruct (sp d); simpl; [reflexivity|]. rewrite Hd. reflexivity.
  - simpl in *. rewrite Hd. exact IH.
Qed.

Lemma strip_no_char (c : ascii) (s : string) :
  has_char c s = false -> has_char c (strip s) = false.
Proof.
  intros H. unfold strip.
  apply rstrip_by_no_char, lstrip_by_no_char, H.
Qed.

Lemma drop_underscores_no_char (c prev : ascii) (s s' : string) :
  has_char c s = false ->
  drop_underscores prev s = Ok s' ->
  has_char c s' = false.
Proof.
  revert prev s'. induction s as [|d t IH]; simpl; intros prev s' H E.
  - destruct (Ascii.eqb prev "_"); [discriminate|].
    injection E as <-. reflexivity.
  - apply orb_false_iff in H as [Hd Ht].
    destruct (Ascii.eqb d "_").
    + destruct (isdigit prev); [|discriminate]. eauto.
    + destruct (Ascii.eqb prev "_" && negb (isdigit d)); [discriminate|].
      destruct (drop_underscores d t) as [t'|] eqn:Et; simpl in E; [|discriminate].
      injection E as <-. simpl. rewrite Hd. eauto.
Qed.

Lemma take_sign_no_minus (s : string) :
  has_char "-" s = false ->
  fst (take_sign s) = false /\ has_char "-" (snd (take_sign s)) = false.
Proof.
  destruct s as [|c t]; simpl; intros H; [auto|].
  apply orb_false_iff in H as [Hc Ht].
  rewrite Hc. destruct (Ascii.eqb c "+"); simpl; [auto|].
  rewrite Hc. auto.
Qed.

(** ** Signs of binary64 results

    Rounding keeps the sign it is given, so sums, quotients and decimal
    literals built from non-negative parts are NaN or non-negative. *)

Lemma binary_round_aux_sign (sx : bool) (mx ex : Z) (lx : SpecFloat.location) :
  F64.sign (binary_round_aux F64.prec F64.emax sx mx ex lx) = Some sx
  \/ binary_round_aux F64.prec F64.emax sx mx ex lx = S754_nan.
Proof.
  unfold binary_round_aux.
  destruct (shr_fexp F64.prec F64.emax mx ex lx) as [mrs1 e1].
  destruct (shr_fexp F64.prec F64.emax _ e1 loc_Exact) as [mrs2 e2].
  destruct (shr_m mrs2); [left; reflexivity | | right; reflexivity].
  destruct (e2 <=? F64.emax - F64.prec); left; reflexivity.
Qed.

Lemma binary_round_sign (sx : bool) (mx : positive) (ex : Z) :
  F64.sign (binary_round F64.prec F64.emax sx mx ex) = Some sx
  \/ binary_round F64.prec F64.emax sx mx ex = S754_nan.
Proof.
  unfold binary_round.
  destruct (shl_align mx ex _) as [mz ez].
  apply binary_round_aux_sign.
Qed.

Lemma not_negative_round_aux (mx ex : Z) (lx : SpecFloat.location) :
  not_negative (binary_round_aux F64.prec F64.emax false mx ex lx).
Proof.
  unfold not_negative.
  destruct (binary_round_aux_sign false mx ex lx) as [H|H]; rewrite H;
    simpl; discriminate.
Qed.

Lemma not_negative_round (mx : positive) (ex : Z) :
  not_negative (binary_round F64.prec F64.emax false mx ex).
Proof.
  unfold not_negative.
  destruct (binary_round_sign false mx ex) as [H|H]; rewrite H;
    simpl; discriminate.
Qed.

Lemma not_negative_nan : not_negative F64.nan.
Proof. unfold not_negative; simpl; discriminate. Qed.

Lemma not_negative_add (x y : float) :
  not_negative x -> not_negative y -> not_negative (F64.add x y).
Proof.
  unfold not_negative.
  destruct x as [sx|sx| |sx mx ex], y as [sy|sy| |sy my ey]; simpl; intros Hx Hy;
    try discriminate; try assumption;
    try (destruct sx; [congruence|]); try (destruct sy; [congruence|]);
    try discriminate.
  unfold F64.add, SFadd, cond_Zopp.
  destruct (shl_align mx ex _) as [m1 e1], (shl_align my ey _) as [m2 e2].
  simpl. apply not_negative_round.
Qed.

Lemma not_negative_of_Z (z : Z) : 0 <= z -> not_negative (F64.of_Z z).
Proof.
  intros Hz. unfold F64.of_Z, binary_normalize.
  destruct z as [|p|p]; [unfold not_negative; simpl; discriminate | | lia].
  apply not_negative_round.
Qed.

Lemma not_negative_div (x y : float) :
  not_negative x -> not_negative y -> not_negative (F64.div x y).
Proof.
  unfold not_negative.
  destruct x as [sx|sx| |sx mx ex], y as [sy|sy| |sy my ey]; simpl; intros Hx Hy;
    try discriminate;
    try (destruct sx; [congruence|]); try (destruct sy; [congruence|]);
    try discriminate.
  unfold F64.div, SFdiv.
  destruct (SFdiv_core_binary _ _ _ _ _ _) as [[mz ez] lz].
  apply not_negative_round_aux.
Qed.

Lemma not_negative_of_decimal (m e : Z) : not_negative (F64.of_decimal false m e).
Proof.
  unfold F64.of_decimal.
  destruct m; try (unfold not_negative; simpl; discriminate).
  apply not_negative_div; unfold not_negative; simpl; discriminate.
Qed.

Lemma add_zero_l (x : float) :
  not_negative x -> F64.add (S754_zero false) x = x.
Proof.
  unfold not_negative.
  destruct x as [s|s| |s m e]; simpl; intros H; try reflexivity.
  destruct s; [congruence | reflexivity].
Qed.

Lemma not_negative_sum (xs : list float) (acc : float) :
  not_negative acc -> Forall not_negative xs ->
  not_negative (fold_left F64.add xs acc).
Proof.
  revert acc. induction xs as [|x rest IH]; simpl; intros acc Ha Hxs; [assumption|].
  inversion Hxs; subst. apply IH; [apply not_negative_add|]; assumption.
Qed.

Lemma not_negative_zero : not_negative (S754_zero false).
Proof. unfold not_negative; simpl; discriminate. Qed.

Lemma Forall_firstn_skipn {A : Type} (P : A -> Prop) (n : nat) (l : list A) :
  Forall P l -> Forall P (firstn n l) /\ Forall P (skipn n l).
Proof.
  intros H. rewrite <- (firstn_skipn n l) in H.
  apply Forall_app in H. exact H.
Qed.

Lemma not_negative_add_lists (r a : list float) :
  Forall not_negative r -> Forall not_negative a ->
  Forall not_negative (add_lists r a).
Proof.
  unfold add_lists. intros Hr. revert a.
  induction Hr as [|x r Hx _ IH]; intros a Ha; [constructor|].
  destruct Ha as [|y a Hy Ha]; simpl; [constructor|].
  constructor; [apply not_negative_add; assumption | apply IH, Ha].
Qed.

Lemma not_negative_unrolled (fuel : nat) (r rest : list float) :
  Forall not_negative r -> Forall not_negative rest ->
  Forall not_negative (fst (unrolled fuel r rest))
  /\ Forall not_negative (snd (unrolled fuel r rest)).
Proof.
  revert r rest.
  induction fuel as [|fuel IH]; intros r rest Hr Hrest; cbn [unrolled].
  - auto.
  - destruct (8 <=? List.length rest)%nat; [|auto].
    destruct (Forall_firstn_skipn _ 8 rest Hrest) as [Hf Hs].
    apply IH; [apply not_negative_add_lists; assumption | exact Hs].
Qed.

Lemma not_negative_combine8 (r : list float) :
  Forall not_negative r -> not_negative (combine8 r).
Proof.
  intros H. unfold combine8.
  do 8 (destruct r as [|? r]; [apply not_negative_nan|]).
  destruct r; [|apply not_negative_nan].
  repeat match goal with
         | H : Forall _ (_ :: _) |- _ => inversion H; clear H; subst
         end.
  repeat apply not_negative_add; assumption.
Qed.

Lemma not_negative_pairwise (fuel : nat) (a : list float) :
  Forall not_negative a -> not_negative (pairwise_sum fuel a).
Proof.
  revert a. induction fuel as [|fuel IH]; intros a Ha; cbn [pairwise_sum].
  all: destruct (List.length a <? 8)%nat;
    [apply not_negative_sum; [apply not_negative_zero | exact Ha]|].
  all: destruct (Forall_firstn_skipn _ 8 a Ha) as [H8 Hr].
  all: destruct (List.length a <=? 128)%nat;
    [ pose proof (not_negative_unrolled (List.length a) _ _ H8 Hr) as [Hu Ht];
      destruct (unrolled _ _ _) as [r rest]; simpl in Hu, Ht;
      apply not_negative_sum; [apply not_negative_combine8, Hu | exact Ht] |].
  - apply not_negative_nan.
  - destruct (Forall_firstn_skipn _ (List.length a / 2 - (List.length a / 2) mod 8)
                a Ha) as [H1 H2].
    apply not_negative_add; apply IH; assumption.
Qed.

Lemma not_negative_mean (xs : list float) :
  Forall not_negative xs -> not_negative (np_mean xs).
Proof.
  intros H. unfold np_mean.
  apply not_negative_div.
  - apply not_negative_add; [apply not_negative_zero|].
    apply not_negative_pairwise, H.
  - apply not_negative_of_Z. lia.
Qed.

Lemma not_negative_notnan (x : float) :
  not_negative x -> F64.isnan x = false -> nonneg x.
Proof.
  unfold not_negative, nonneg.
  destruct x as [s|s| |s m e]; simpl; intros H N; try discriminate;
    destruct s; congruence.
Qed.

(** ** [float()] of a string without a minus sign *)

Lemma inf_or_nan_not_negative (body : string) (x : float) :
  inf_or_nan false body = Some x -> not_negative x.
Proof.
  unfold inf_or_nan.
  destruct (_ || _); [intros [= <-]; unfold not_negative; simpl; discriminate|].
  destruct (String.eqb _ _); [intros [= <-]; apply not_negative_nan | discriminate].
Qed.

Lemma decimal_not_negative (body : string) (x : float) :
  decimal false body = Ok x -> not_negative x.
Proof.
  unfold decimal.
  destruct (span_digits body) as [ip r1].
  destruct (match r1 with
            | EmptyString => _
            | String c t => _
            end) as [fp r2].
  destruct (is_empty ip && is_empty fp); [discriminate|].
  destruct (exponent r2) as [e|]; simpl; [|discriminate].
  intros [= <-]. apply not_negative_of_decimal.
Qed.

Lemma py_float_not_negative (s : string) (x : float) :
  has_char "-" s = false -> py_float s = Ok x -> not_negative x.
Proof.
  intros Hs. unfold py_float.
  destruct (if has_char "_" s then drop_underscores zero s else Ok s) as [s1|] eqn:E1;
    simpl; [|discriminate].
  assert (H1 : has_char "-" s1 = false).
  { destruct (has_char "_" s).
    - eapply drop_underscores_no_char; eassumption.
    - injection E1 as <-. exact Hs. }
  pose proof (take_sign_no_minus _
                (rstrip_by_no_char isspace_num _ _
                   (lstrip_by_no_char isspace_num _ _ H1))) as [Hneg _].
  destruct (take_sign _) as [neg body]. simpl in Hneg. subst neg.
  destruct (inf_or_nan false body) as [y|] eqn:Ei.
  - intros [= <-]. eapply inf_or_nan_not_negative; eassumption.
  - apply decimal_not_negative.
Qed.

Lemma apply_each_Forall2 {A B : Type} (f : A -> result B) (xs : list A) (ys : list B) :
  apply_each f xs = Ok ys -> Forall2 (fun x y => f x = Ok y) xs ys.
Proof.
  revert ys. induction xs as [|x rest IH]; simpl; intros ys E.
  - injection E as <-. constructor.
  - destruct (f x) as [y|] eqn:Ex; simpl in E; [|discriminate].
    destruct (apply_each f rest) as [ys'|] eqn:Er; simpl in E; [|discriminate].
    injection E as <-. constructor; auto.
Qed.

Lemma apply_each_In {A B : Type} (f : A -> result B) (xs : list A) (ys : list B) (y : B) :
  apply_each f xs = Ok ys -> In y ys -> exists x, In x xs /\ f x = Ok y.
Proof.
  intros E. apply apply_each_Forall2 in E.
  induction E as [|x y' xs' ys' Hxy _ IH]; simpl; [contradiction|].
  intros [<-|Hin]; [exists x; auto|].
  destruct (IH Hin) as (x0 & Hx0 & Hf). exists x0; auto.
Qed.

Lemma clean_sqft_not_negative (s : string) : not_negative (clean_sqft (QStr s)).
Proof.
  unfold clean_sqft, try_except, sqft_str.
  assert (Plain : forall t, has_char "-" t = false ->
            not_negative match (tok <- item0 (split " " t) ;; py_float tok) with
                         | Ok v => v
                         | Raise _ => F64.nan
                         end).
  { intros t Ht. rewrite item0_split. simpl.
    destruct (py_float _) as [v|] eqn:E; [|apply not_negative_nan].
    eapply py_float_not_negative; [|exact E].
    clear E. induction t as [|c t IH]; simpl in *; [reflexivity|].
    apply orb_false_iff in Ht as [Hc Ht].
    destruct (Ascii.eqb c " "); simpl; [reflexivity|].
    rewrite Hc. auto. }
  destruct (has_char "-" s) eqn:Hs; [|apply Plain; exact Hs].
  destruct (apply_each _ (split "-" s)) as [parts|] eqn:E; simpl; [|apply not_negative_nan].
  apply not_negative_mean.
  apply apply_each_Forall2 in E.
  pose proof (split_pieces_no_sep "-" s) as Hp.
  induction E as [|p v ps vs Hpv _ IH]; [constructor|].
  inversion Hp; subst. constructor; [|auto].
  eapply py_float_not_negative; [|exact Hpv].
  apply strip_no_char. assumption.
Qed.

(** ** The rows that [load_data] returns *)

(** Splits the conjunction tested by the final [dropna]. *)
Ltac split_critical H :=
  unfold critical_notna in H;
  repeat (apply andb_true_iff in H as [H ?]).

Lemma load_data_inv (df : list raw_row) (out : list clean_row) (c : clean_row) :
  load_data df = Ok out -> In c out ->
  exists r,
    In r df /\ derived_from r c
    /\ notna (raw_size r) = true
    /\ critical_notna (cols c) = true
    /\ bhk_lt (BHK (cols c)) 10 = true.
Proof.
  unfold load_data. intros E Hin.
  destruct (apply_each with_bhk _) as [df3|] eqn:E3; simpl in E; [|discriminate].
  destruct (apply_each with_price_per_sqft _) as [df5|] eqn:E5; simpl in E;
    [|discriminate].
  injection E as <-.
  apply filter_In in Hin as [Hin Hlt].
  destruct (apply_each_In _ _ _ _ E5 Hin) as (b & Hb & Ec).
  assert (Hcb : cols c = b).
  { unfold with_price_per_sqft in Ec.
    destruct (per_sqft _ _); simpl in Ec; [|discriminate].
    injection Ec as <-. reflexivity. }
  subst b.
  apply filter_In in Hb as [Hb Hcrit].
  destruct (apply_each_In _ _ _ _ E3 Hb) as (q & Hq & Eq).
  apply filter_In in Hq as [Hq Hsize].
  apply in_map_iff in Hq as (r & <- & Hr).
  unfold with_bhk in Eq.
  destruct (derive_bhk (size (with_sqft r))) as [v|] eqn:Ev; simpl in Eq; [|discriminate].
  injection Eq as Eq.
  exists r. unfold derived_from. rewrite <- Eq. simpl.
  rewrite <- Eq in Hcrit, Hlt. simpl in Hlt.
  repeat split; try assumption.
  rewrite Eq. exact Ec.
Qed.

(** C1. A row of the cleaned table comes from a raw row whose derived BHK,
    cleaned total_sqft, price and location are all present, and its BHK is
    an integer below 10. *)
Theorem C1_cleaned_rows_complete_and_below_10
        (df : list raw_row) (out : list clean_row) (c : clean_row) :
  load_data df = Ok out -> In c out ->
  exists r n,
    In r df /\ derived_from r c
    /\ BHK (cols c) = BInt n /\ n < 10
    /\ F64.isnan (total_sqft (base (cols c))) = false
    /\ price_isna (price (base (cols c))) = false
    /\ isna (location (base (cols c))) = false.
Proof.
  intros E Hin.
  destruct (load_data_inv df out c E Hin) as (r & Hr & Hd & _ & Hcrit & Hlt).
  split_critical Hcrit.
  destruct (BHK (cols c)) as [n|] eqn:Eb; [|discriminate].
  exists r, n. simpl in Hlt. apply Z.ltb_lt in Hlt.
  unfold notna in *.
  repeat split; try assumption; try apply Hd;
    now apply negb_true_iff.
Qed.

Lemma C1_witness :
  exists r n,
    In r scenario /\ derived_from r scenario_cleaned
    /\ BHK (cols scenario_cleaned) = BInt n /\ n < 10
    /\ F64.isnan (total_sqft (base (cols scenario_cleaned))) = false
    /\ price_isna (price (base (cols scenario_cleaned))) = false
    /\ isna (location (base (cols scenario_cleaned))) = false.
Proof.
  apply (C1_cleaned_rows_complete_and_below_10 scenario [scenario_cleaned]).
  - vm_compute. reflexivity.
  - left. reflexivity.
Defined.

(** A row with 10 bedrooms and every other field valid is read without
    error and left out of the cleaned table. *)
Example ten_bhk_row_dropped :
  load_data (table_with "10 BHK" "1200") = Ok [scenario_cleaned].
Proof. vm_compute. reflexivity. Qed.

(** C8. The end-to-end scenario: of the two rows only the "2 BHK" row is
    kept; its BHK is 2, its total_sqft is 1100.0 and its price_per_sqft is
    the binary64 quotient 5000000/1100, which Python prints as
    4545.454545454545 and which lies between 4545.45 and 4545.46. *)
Theorem C8_end_to_end_scenario :
  exists c,
    load_data scenario = Ok [c]
    /\ size (base (cols c)) = CStr "2 BHK"
    /\ BHK (cols c) = BInt 2
    /\ Ok (total_sqft (base (cols c))) = py_float "1100.0"
    /\ price_per_sqft c = F64.div (F64.of_Z (50 * 100000)) (F64.of_Z 1100)
    /\ Ok (price_per_sqft c) = py_float "4545.454545454545"
    /\ (lo <- py_float "4545.45" ;; hi <- py_float "4545.46" ;;
        Ok (F64.ltb lo (price_per_sqft c) && F64.ltb (price_per_sqft c) hi))
       = Ok true.
Proof.
  exists scenario_cleaned. vm_compute. repeat split.
Qed.

(** C4 (the defect). A [size] text that names bedrooms but does not start
    with an integer makes the lambda raise: [int("Four")] is a ValueError,
    nothing catches it, and [load_data] returns no table at all.  A
    malformed [total_sqft] in the same position is only marked missing. *)
Theorem C4_malformed_size_raises :
  derive_bhk (CStr "Four BHK") = Raise ValueError
  /\ load_data (table_with "Four BHK" "1200") = Raise ValueError
  /\ load_data (table_with "2 BHK" "12x0") = Ok [scenario_cleaned].
Proof. vm_compute. repeat split. Qed.

(** ** The cleaned value of [total_sqft] *)

(** A cell that is not a text with a hyphen is cleaned by converting the
    part of its text before the first space. *)
Lemma clean_sqft_plain (x : sqft_cell) :
  is_range x = false ->
  clean_sqft x = try_except (py_float (before_first " " (sqft_str x))) F64.nan.
Proof.
  unfold clean_sqft, is_range. intros H.
  destruct x as [s| |n|f shown]; try rewrite H; rewrite item0_split; reflexivity.
Qed.

(** A text with a hyphen is cleaned by converting every piece between the
    hyphens and averaging all of them. *)
Lemma clean_sqft_range (s : string) :
  has_char "-" s = true ->
  clean_sqft (QStr s) =
    try_except (parts <- apply_each (fun p => py_float (strip p)) (split "-" s) ;;
                Ok (np_mean parts))
               F64.nan.
Proof.
  unfold clean_sqft. intros H. rewrite H. reflexivity.
Qed.

Lemma np_mean_pair (x y : float) :
  not_negative x -> not_negative y ->
  np_mean [x; y] = F64.div (F64.add x y) (F64.of_Z 2).
Proof.
  intros Hx Hy. unfold np_mean. cbn [List.length pairwise_sum Nat.ltb Nat.leb].
  unfold add_all, fold_left. rewrite (add_zero_l x Hx).
  rewrite add_zero_l by (apply not_negative_add; assumption).
  reflexivity.
Qed.

Lemma np_mean_triple (x y z : float) :
  not_negative x -> not_negative y -> not_negative z ->
  np_mean [x; y; z] = F64.div (F64.add (F64.add x y) z) (F64.of_Z 3).
Proof.
  intros Hx Hy Hz. unfold np_mean. cbn [List.length pairwise_sum Nat.ltb Nat.leb].
  unfold add_all, fold_left. rewrite (add_zero_l x Hx).
  rewrite add_zero_l by (repeat apply not_negative_add; assumption).
  reflexivity.
Qed.

Lemma apply_each_raises {A B : Type} (f : A -> result B) (xs : list A) (x : A) (e : exn) :
  In x xs -> f x = Raise e -> exists e', apply_each f xs = Raise e'.
Proof.
  induction xs as [|y rest IH]; simpl; intros Hin Hx; [contradiction|].
  destruct Hin as [->|Hin].
  - rewrite Hx. simpl. eexists; reflexivity.
  - destruct (f y); simpl; [|eexists; reflexivity].
    destruct (IH Hin Hx) as [e' ->]. simpl. eexists; reflexivity.
Qed.

(** A text [a-b] with exactly one hyphen is cleaned to the binary64 mean
    of its two trimmed parts, NaN when either is not a float. *)
Lemma clean_sqft_one_hyphen (a b : string) :
  has_char "-" a = false -> has_char "-" b = false ->
  clean_sqft (QStr (a ++ String "-" b)) =
    match py_float (strip a), py_float (strip b) with
    | Ok fa, Ok fb => F64.div (F64.add fa fb) (F64.of_Z 2)
    | _, _ => F64.nan
    end.
Proof.
  intros Ha Hb.
  rewrite clean_sqft_range
    by (rewrite has_char_app; simpl; apply orb_true_r).
  rewrite (split_app "-" a b Ha), (split_no_sep "-" b Hb).
  simpl apply_each.
  destruct (py_float (strip a)) as [fa|] eqn:Ea; simpl; [|reflexivity].
  destruct (py_float (strip b)) as [fb|] eqn:Eb; simpl; [|reflexivity].
  apply np_mean_pair.
  - eapply py_float_not_negative; [|exact Ea]. apply strip_no_char, Ha.
  - eapply py_float_not_negative; [|exact Eb]. apply strip_no_char, Hb.
Qed.

(** A text [a-b-c] with two hyphens is cleaned to the binary64 mean of
    its three trimmed parts, NaN when one of them is not a float. *)
Lemma clean_sqft_two_hyphens (a b c : string) :
  has_char "-" a = false -> has_char "-" b = false -> has_char "-" c = false ->
  clean_sqft (QStr (a ++ String "-" (b ++ String "-" c))) =
    match py_float (strip a), py_float (strip b), py_float (strip c) with
    | Ok fa, Ok fb, Ok fc => F64.div (F64.add (F64.add fa fb) fc) (F64.of_Z 3)
    | _, _, _ => F64.nan
    end.
Proof.
  intros Ha Hb Hc.
  rewrite clean_sqft_range
    by (rewrite has_char_app; simpl; apply orb_true_r).
  rewrite (split_app "-" a _ Ha), (split_app "-" b c Hb), (split_no_sep "-" c Hc).
  simpl apply_each.
  destruct (py_float (strip a)) as [fa|] eqn:Ea; simpl; [|reflexivity].
  destruct (py_float (strip b)) as [fb|] eqn:Eb; simpl; [|reflexivity].
  destruct (py_float (strip c)) as [fc|] eqn:Ec; simpl; [|reflexivity].
  apply np_mean_triple.
  - eapply py_float_not_negative; [|exact Ea]. apply strip_no_char, Ha.
  - eapply py_float_not_negative; [|exact Eb]. apply strip_no_char, Hb.
  - eapply py_float_not_negative; [|exact Ec]. apply strip_no_char, Hc.
Qed.

(** A text with a hyphen one of whose pieces is not a float is cleaned to
    NaN. *)
Lemma clean_sqft_bad_part (s p : string) (e : exn) :
  has_char "-" s = true ->
  In p (split "-" s) -> py_float (strip p) = Raise e ->
  clean_sqft (QStr s) = F64.nan.
Proof.
  intros H Hin Hp. rewrite (clean_sqft_range s H).
  destruct (apply_each_raises (fun p => py_float (strip p)) _ p e Hin Hp) as [e' ->].
  reflexivity.
Qed.

(** C2 (amended). A text with exactly one hyphen, [a-b], is cleaned to the
    binary64 mean [(fa + fb) / 2] of its two trimmed parts when both are
    floats for [float()], and to NaN otherwise.  The text is cut at every
    hyphen and all the parts count: with two hyphens, [a-b-c], the value is
    the mean [((fa + fb) + fc) / 3] of the three parts, not of the two
    ends.  Whatever the number of hyphens, one part that is not a float
    makes the value NaN; so a text that starts with a hyphen, the minus
    sign of a negative lower end, is always cleaned to NaN. *)
Theorem C2_range_is_mean_of_parts (s : string) :
  has_char "-" s = true ->
  (forall a b,
     s = a ++ String "-" b ->
     has_char "-" a = false -> has_char "-" b = false ->
     clean_sqft (QStr s) =
       match py_float (strip a), py_float (strip b) with
       | Ok fa, Ok fb => F64.div (F64.add fa fb) (F64.of_Z 2)
       | _, _ => F64.nan
       end)
  /\ (forall a b c,
        s = a ++ String "-" (b ++ String "-" c) ->
        has_char "-" a = false -> has_char "-" b = false ->
        has_char "-" c = false ->
        clean_sqft (QStr s) =
          match py_float (strip a), py_float (strip b), py_float (strip c) with
          | Ok fa, Ok fb, Ok fc =>
              F64.div (F64.add (F64.add fa fb) fc) (F64.of_Z 3)
          | _, _, _ => F64.nan
          end)
  /\ (forall p e,
        In p (split "-" s) -> py_float (strip p) = Raise e ->
        clean_sqft (QStr s) = F64.nan)
  /\ (forall t, s = String "-" t -> clean_sqft (QStr s) = F64.nan).
Proof.
  intros H. split; [|split; [|split]].
  - intros a b -> Ha Hb. apply clean_sqft_one_hyphen; assumption.
  - intros a b c -> Ha Hb Hc. apply clean_sqft_two_hyphens; assumption.
  - intros p e. apply clean_sqft_bad_part, H.
  - intros t ->. apply (clean_sqft_bad_part _ "" ValueError H); [|reflexivity].
    simpl. left. reflexivity.
Qed.

Lemma C2_witness :
  clean_sqft (QStr "1000 - 1200") = F64.of_Z 1100
  /\ clean_sqft (QStr "1000 - 12x0") = F64.nan.
Proof.
  destruct (C2_range_is_mean_of_parts "1000 - 1200") as (H & _ & _ & _);
    [reflexivity|].
  destruct (C2_range_is_mean_of_parts "1000 - 12x0") as (_ & _ & H' & _);
    [reflexivity|].
  split.
  - rewrite (H "1000 " " 1200"); vm_compute; reflexivity.
  - apply (H' " 12x0" ValueError); [right; left|]; reflexivity.
Defined.

(** Both "-1" and "5" are floats for [float()], yet "-1 - 5" is cleaned to
    NaN and not to their mean 2.0: the minus sign is a hyphen, the text has
    three parts and the first one is empty. *)
Lemma C2_counterexample :
  py_float "-1" = Ok (F64.of_Z (-1)) /\ py_float "5" = Ok (F64.of_Z 5)
  /\ F64.div (F64.add (F64.of_Z (-1)) (F64.of_Z 5)) (F64.of_Z 2) = F64.of_Z 2
  /\ clean_sqft (QStr ("-1" ++ " - " ++ "5")) = F64.nan
  /\ clean_sqft (QStr ("-1" ++ " - " ++ "5"))
     <> F64.div (F64.add (F64.of_Z (-1)) (F64.of_Z 5)) (F64.of_Z 2).
Proof.
  vm_compute. repeat split. discriminate.
Qed.

(** With more than one hyphen all the parts count: "1-2-6" is cleaned to
    3.0, the mean of 1, 2 and 6, not to the mean 3.5 of its two ends. *)
Example clean_sqft_three_parts :
  clean_sqft (QStr "1-2-6") = F64.of_Z 3
  /\ py_float "3.5" <> Ok (clean_sqft (QStr "1-2-6")).
Proof. vm_compute. split; [reflexivity | discriminate]. Qed.

(** From eight parts on [np.mean] adds in pairs, not from left to right:
    the eight parts of "1e16-1-1-1-1-1-1-1" add up to 1e16 + 6 and their
    mean is 1250000000000000.75, where adding from left to right would
    leave 1e16 and give 1250000000000000.0. *)
Example clean_sqft_eight_parts :
  Ok (clean_sqft (QStr "1e16-1-1-1-1-1-1-1")) = py_float "1250000000000000.75"
  /\ py_float "1250000000000000.0"
     = (big <- py_float "1e16" ;; one <- py_float "1" ;;
        Ok (F64.div (add_all (S754_zero false) [big; one; one; one; one; one; one; one])
                    (F64.of_Z 8))).
Proof. vm_compute. split; reflexivity. Qed.

(** C5 (amended). A value that is not a text with a hyphen is cleaned by
    converting the part of its text before the first space character
    (U+0020), NaN when that conversion fails; no other whitespace ends the
    token.  So "1000 Sq. Meter" gives 1000.0 and "abc" gives NaN. *)
Theorem C5_plain_token_before_first_space (x : sqft_cell) :
  is_range x = false ->
  clean_sqft x = try_except (py_float (before_first " " (sqft_str x))) F64.nan
  /\ clean_sqft (QStr "1000 Sq. Meter") = F64.of_Z 1000
  /\ clean_sqft (QStr "abc") = F64.nan.
Proof.
  intros H. split; [apply clean_sqft_plain, H|].
  vm_compute. split; reflexivity.
Qed.

Lemma C5_witness :
  clean_sqft QNaN = try_except (py_float (before_first " " "nan")) F64.nan
  /\ clean_sqft (QStr "1000 Sq. Meter") = F64.of_Z 1000
  /\ clean_sqft (QStr "abc") = F64.nan.
Proof.
  apply (C5_plain_token_before_first_space QNaN). reflexivity.
Defined.

(** In "1000<TAB>Sq. Meter" the first whitespace character is the tab: the
    rule of the specification converts "1000" and gives 1000.0, while
    [clean_sqft] converts the whole text up to the first space,
    "1000<TAB>Sq.", and gives NaN. *)
Lemma C5_counterexample :
  let s := "1000" ++ String "009" "Sq. Meter" in
  is_range (QStr s) = false
  /\ spec_first_token s = "1000"
  /\ spec_clean_plain s = F64.of_Z 1000
  /\ clean_sqft (QStr s) = F64.nan
  /\ clean_sqft (QStr s) <> spec_clean_plain s.
Proof.
  vm_compute. repeat split. discriminate.
Qed.

(** C6 (amended). The total_sqft of every row of the cleaned table is a
    number (not NaN); when the raw cell was a text, its sign bit is clear:
    it is zero, a positive finite number or +infinity.  (A cell of a
    numeric column keeps its sign.) *)
Theorem C6_total_sqft_not_nan_not_negative
        (df : list raw_row) (out : list clean_row) (c : clean_row) :
  load_data df = Ok out -> In c out ->
  F64.isnan (total_sqft (base (cols c))) = false
  /\ exists r,
       In r df /\ derived_from r c
       /\ forall s, raw_total_sqft r = QStr s -> nonneg (total_sqft (base (cols c))).
Proof.
  intros E Hin.
  destruct (load_data_inv df out c E Hin) as (r & Hr & Hd & _ & Hcrit & _).
  split_critical Hcrit.
  assert (Hnan : F64.isnan (total_sqft (base (cols c))) = false)
    by now apply negb_true_iff.
  split; [exact Hnan|].
  exists r. split; [exact Hr|]. split; [exact Hd|].
  intros s Hs.
  apply not_negative_notnan; [|exact Hnan].
  destruct Hd as (Hb & _). rewrite Hb. simpl. rewrite Hs.
  apply clean_sqft_not_negative.
Qed.

Lemma C6_witness :
  F64.isnan (total_sqft (base (cols scenario_cleaned))) = false
  /\ exists r,
       In r scenario /\ derived_from r scenario_cleaned
       /\ forall s, raw_total_sqft r = QStr s ->
                    nonneg (total_sqft (base (cols scenario_cleaned))).
Proof.
  apply (C6_total_sqft_not_nan_not_negative scenario [scenario_cleaned]).
  - vm_compute. reflexivity.
  - left. reflexivity.
Defined.

(** Two ways out of the finite non-negative numbers.  The text "inf" is a
    float for [float()]: the row is kept and its total_sqft is +infinity.
    And in a column of numbers a negative value is not a text, so it is
    converted by the second rule and kept: -5 stays -5.0. *)
Lemma C6_counterexample :
  (load_data (table_with "2 BHK" "inf")
   = Ok [scenario_cleaned; test_cleaned "2 BHK" "inf" 2]
   /\ total_sqft (base (cols (test_cleaned "2 BHK" "inf" 2))) = F64.pinf
   /\ F64.isfinite (total_sqft (base (cols (test_cleaned "2 BHK" "inf" 2)))) = false)
  /\ (load_data numeric_table
      = Ok [expected_row (numeric_row 1200) 2; expected_row (numeric_row (-5)) 2]
      /\ total_sqft (base (cols (expected_row (numeric_row (-5)) 2))) = F64.of_Z (-5)
      /\ F64.sign (total_sqft (base (cols (expected_row (numeric_row (-5)) 2))))
         = Some true).
Proof. vm_compute. repeat split. Qed.

(** So does a literal too large for binary64. *)
Example overflowing_literal_is_inf : clean_sqft (QStr "1e999") = F64.pinf.
Proof. vm_compute. reflexivity. Qed.

(** ** The derived column BHK *)

(** C3 (amended). When [size] is a text that contains "BHK" or "Bedroom"
    and the part before its first space is an integer literal for [int()],
    BHK is that integer, whatever its sign; when [size] is not a text or
    contains neither word, BHK is missing. *)
Theorem C3_bhk_is_leading_integer (x : cell) (n : Z) :
  (mentions_bedrooms x = true ->
   py_int (before_first " " (py_str x)) = Ok n ->
   derive_bhk x = Ok (BInt n))
  /\ (mentions_bedrooms x = false -> derive_bhk x = Ok BNaN).
Proof.
  unfold derive_bhk. destruct x as [s|]; simpl.
  - split; intros H.
    + intros Hn. rewrite H, item0_split. simpl. rewrite Hn. reflexivity.
    + rewrite H. reflexivity.
  - split; [discriminate | reflexivity].
Qed.

Lemma C3_witness :
  derive_bhk (CStr "2 BHK") = Ok (BInt 2)
  /\ derive_bhk (CStr "3 Bedroom Flat") = Ok (BInt 3)
  /\ derive_bhk (CStr "Studio") = Ok BNaN.
Proof.
  split; [|split].
  - apply (proj1 (C3_bhk_is_leading_integer (CStr "2 BHK") 2)); reflexivity.
  - apply (proj1 (C3_bhk_is_leading_integer (CStr "3 Bedroom Flat") 3)); reflexivity.
  - apply (proj2 (C3_bhk_is_leading_integer (CStr "Studio") 0)); reflexivity.
Defined.

(** The size "0 BHK" contains "BHK" and its row is kept, with a derived
    BHK of 0, which is not a positive integer. *)
Lemma C3_counterexample :
  load_data (table_with "0 BHK" "1200")
  = Ok [scenario_cleaned; test_cleaned "0 BHK" "1200" 0]
  /\ mentions_bedrooms (CStr "0 BHK") = true
  /\ derive_bhk (CStr "0 BHK") = Ok (BInt 0)
  /\ ~ (exists n, derive_bhk (CStr "0 BHK") = Ok (BInt n) /\ 0 < n).
Proof.
  split; [vm_compute; reflexivity|].
  split; [reflexivity|]. split; [reflexivity|].
  intros (n & E & Hn). vm_compute in E. injection E as <-. lia.
Qed.

(** Neither is a negative count refused. *)
Example negative_bhk_kept :
  load_data (table_with "-2 Bedroom" "1200")
  = Ok [scenario_cleaned; test_cleaned "-2 Bedroom" "1200" (-2)].
Proof. vm_compute. reflexivity. Qed.

(** ** The plot dispatch *)

Lemma startswith_first_char (p : ascii) (c : ascii) (rest : string) :
  startswith (String c rest) (String p EmptyString) = Ascii.eqb p c.
Proof.
  unfold startswith. simpl.
  destruct (ascii_dec p c) as [->|Hne].
  - rewrite Ascii.eqb_refl. destruct rest; reflexivity.
  - apply Ascii.eqb_neq in Hne. rewrite Hne. reflexivity.
Qed.

(** C9. A selection that starts with none of the identifiers "1" to "5"
    runs no plotting function: the page is left as it was, so no chart is
    added, and the chain has no failing step. *)
Theorem C9_unknown_selection_is_noop
        (df_clean : list clean_row) (selected_plot : string) (out : page) :
  Forall (fun id => startswith selected_plot id = false) plot_ids ->
  display_selected_plot df_clean selected_plot out = out
  /\ charts (display_selected_plot df_clean selected_plot out) = charts out.
Proof.
  intros H. unfold plot_ids in H.
  repeat match goal with
         | H : Forall _ (_ :: _) |- _ => inversion H; clear H; subst
         end.
  assert (E : display_selected_plot df_clean selected_plot out = out).
  { unfold display_selected_plot.
    repeat match goal with
           | H : startswith _ _ = false |- _ => rewrite H; clear H
           end.
    reflexivity. }
  rewrite E. split; reflexivity.
Qed.

Lemma C9_witness :
  display_selected_plot [] "6. Price Heatmap" [] = []
  /\ charts (display_selected_plot [] "6. Price Heatmap" []) = charts [].
Proof.
  apply (C9_unknown_selection_is_noop [] "6. Price Heatmap" []).
  repeat constructor.
Defined.

Lemma charts_app (a b : page) :
  charts (a ++ b)%list = (charts a ++ charts b)%list.
Proof. unfold charts. apply flat_map_app. Qed.

(** C10. The dispatch looks at the first character only: a selection
    whose first character is '1', ..., '5' runs the plotting function of
    that number, which adds the chart of that number to the page, whatever
    follows the first character; and the chain is the first-match search
    through the branches in the order 1, 2, 3, 4, 5. *)
Theorem C10_dispatch_on_first_character
        (df_clean : list clean_row) (rest : string) (out : page) :
  (display_selected_plot df_clean (String "1" rest) out
     = plot_1_price_distribution df_clean out
   /\ display_selected_plot df_clean (String "2" rest) out
     = plot_2_bhk_vs_price df_clean out
   /\ display_selected_plot df_clean (String "3" rest) out
     = plot_3_top_locations df_clean out
   /\ display_selected_plot df_clean (String "4" rest) out
     = plot_4_scatter_sqft_price df_clean out
   /\ display_selected_plot df_clean (String "5" rest) out
     = plot_5_area_type_distribution df_clean out)
  /\ (charts (display_selected_plot df_clean (String "1" rest) out)
       = (charts out ++ [PriceDistribution])%list
     /\ charts (display_selected_plot df_clean (String "2" rest) out)
       = (charts out ++ [BhkVsPrice])%list
     /\ charts (display_selected_plot df_clean (String "3" rest) out)
       = (charts out ++ [TopLocations])%list
     /\ charts (display_selected_plot df_clean (String "4" rest) out)
       = (charts out ++ [ScatterSqftPrice])%list
     /\ charts (display_selected_plot df_clean (String "5" rest) out)
       = (charts out ++ [AreaTypeDistribution])%list)
  /\ (forall selected_plot,
        display_selected_plot df_clean selected_plot out
        = first_match (branches df_clean) selected_plot out)
  /\ map fst (branches df_clean) = ["1"; "2"; "3"; "4"; "5"].
Proof.
  unfold display_selected_plot.
  rewrite !startswith_first_char. simpl.
  unfold plot_1_price_distribution, plot_2_bhk_vs_price, plot_3_top_locations,
    plot_4_scatter_sqft_price, plot_5_area_type_distribution.
  rewrite !charts_app. simpl.
  repeat split.
Qed.

(** ** Accuracy of one rounding

    [binary_round_aux] shifts the significand right, dropping low bits,
    and adds at most one unit before a second shift: the float it returns
    is within two units in the last place of any real number bracketed by
    the significand it was given. *)

Local Open Scope R_scope.

Lemma bpow_pos (e : Z) : 0 < powerRZ 2 e.
Proof. apply powerRZ_lt. lra. Qed.

Lemma bpow_add (a b : Z) : powerRZ 2 (a + b) = powerRZ 2 a * powerRZ 2 b.
Proof. apply powerRZ_add. lra. Qed.

Lemma bpow_IZR (k : Z) : (0 <= k)%Z -> powerRZ 2 k = IZR (2 ^ k).
Proof.
  intros Hk. destruct k as [|p|p]; [reflexivity | | lia].
  symmetry. apply (Zpower_pos_powerRZ 2 p).
Qed.

Lemma shr_1_m (mrs : shr_record) :
  (0 <= shr_m mrs)%Z -> shr_m (shr_1 mrs) = (shr_m mrs / 2)%Z.
Proof.
  intros H. rewrite <- Z.div2_div.
  destruct mrs as [m r s]. simpl in *.
  destruct m as [|[p|p|]|p]; try reflexivity. lia.
Qed.

Lemma iter_pos_shr_m (n : positive) (mrs : shr_record) :
  (0 <= shr_m mrs)%Z ->
  shr_m (SpecFloat.iter_pos shr_1 n mrs) = (shr_m mrs / 2 ^ Zpos n)%Z.
Proof.
  revert mrs. induction n as [n IH|n IH|]; intros mrs H; simpl SpecFloat.iter_pos.
  - assert (H1 : (0 <= shr_m (shr_1 mrs))%Z)
      by (rewrite shr_1_m by assumption; apply Z.div_pos; lia).
    assert (H2 : (0 <= shr_m (SpecFloat.iter_pos shr_1 n (shr_1 mrs)))%Z)
      by (rewrite IH by assumption; apply Z.div_pos; lia).
    rewrite IH, IH, shr_1_m by assumption.
    rewrite !Z.div_div by lia.
    f_equal.
    replace (Z.pos n~1) with (Z.pos n + Z.pos n + 1)%Z by lia.
    rewrite !Z.pow_add_r, Z.pow_1_r by lia. ring.
  - assert (H2 : (0 <= shr_m (SpecFloat.iter_pos shr_1 n mrs))%Z)
      by (rewrite IH by assumption; apply Z.div_pos; lia).
    rewrite IH, IH by assumption.
    rewrite Z.div_div by lia.
    f_equal.
    replace (Z.pos n~0) with (Z.pos n + Z.pos n)%Z by lia.
    rewrite Z.pow_add_r by lia. ring.
  - rewrite shr_1_m by assumption. reflexivity.
Qed.

(** A right shift by the amount that [fexp] asks for divides the
    significand by a power of two and raises the exponent accordingly. *)
Lemma shr_fexp_spec (m e : Z) (l : SpecFloat.location)
      (mrs : shr_record) (e' : Z) :
  (0 <= m)%Z ->
  shr_fexp F64.prec F64.emax m e l = (mrs, e') ->
  exists k, (0 <= k)%Z /\ e' = (e + k)%Z /\ shr_m mrs = (m / 2 ^ k)%Z.
Proof.
  intros Hm. unfold shr_fexp, shr.
  assert (Hl : shr_m (shr_record_of_loc m l) = m)
    by (destruct l as [|[ | | ]]; reflexivity).
  destruct (fexp F64.prec F64.emax (Zdigits2 m + e) - e)%Z as [|p|p] eqn:Ek;
    intros [= <- <-].
  - exists 0%Z. rewrite Hl, Z.div_1_r. repeat split; lia.
  - exists (Zpos p). rewrite iter_pos_shr_m, Hl by (rewrite Hl; assumption).
    repeat split; lia.
  - exists 0%Z. rewrite Hl, Z.div_1_r. repeat split; lia.
Qed.

Lemma round_nearest_even_bounds (m : Z) (l : SpecFloat.location) :
  (m <= round_nearest_even m l <= m + 1)%Z.
Proof.
  destruct l as [|[ | | ]]; simpl; try lia.
  destruct (Z.even m); lia.
Qed.

(** Dropping [k] low bits of [m] brackets [m * 2^e] and [(m+1) * 2^e]
    between two neighbours at exponent [e + k]. *)
Lemma truncate_bracket (m e k : Z) :
  (0 <= m)%Z -> (0 <= k)%Z ->
  IZR (m / 2 ^ k) * powerRZ 2 (e + k) <= IZR m * powerRZ 2 e
  /\ IZR (m + 1) * powerRZ 2 e <= IZR (m / 2 ^ k + 1) * powerRZ 2 (e + k).
Proof.
  intros Hm Hk.
  rewrite bpow_add, (bpow_IZR k Hk).
  pose proof (bpow_pos e) as He.
  assert (Hp : (0 < 2 ^ k)%Z) by (apply Z.pow_pos_nonneg; lia).
  pose proof (Z.mul_div_le m (2 ^ k) Hp) as Hlo.
  pose proof (Z.mul_succ_div_gt m (2 ^ k) Hp) as Hhi.
  split.
  - replace (IZR (m / 2 ^ k) * (powerRZ 2 e * IZR (2 ^ k)))
      with (IZR (2 ^ k * (m / 2 ^ k)) * powerRZ 2 e)
      by (rewrite mult_IZR; ring).
    apply Rmult_le_compat_r; [lra|]. apply IZR_le. exact Hlo.
  - replace (IZR (m / 2 ^ k + 1) * (powerRZ 2 e * IZR (2 ^ k)))
      with (IZR (2 ^ k * Z.succ (m / 2 ^ k)) * powerRZ 2 e)
      by (unfold Z.succ; rewrite mult_IZR; ring).
    apply Rmult_le_compat_r; [lra|]. apply IZR_le. lia.
Qed.

Lemma binary_round_aux_accuracy
      (sx : bool) (mx ex : Z) (lx : SpecFloat.location)
      (s : bool) (m : positive) (e : Z) (v : R) :
  (0 <= mx)%Z ->
  binary_round_aux F64.prec F64.emax sx mx ex lx = S754_finite s m e ->
  IZR mx * powerRZ 2 ex <= v < IZR (mx + 1) * powerRZ 2 ex ->
  s = sx /\ Rabs (IZR (Zpos m) * powerRZ 2 e - v) <= powerRZ 2 e.
Proof.
  intros Hmx E [Hlo Hhi]. unfold binary_round_aux in E.
  destruct (shr_fexp F64.prec F64.emax mx ex lx) as [mrs1 e1] eqn:E1.
  destruct (shr_fexp F64.prec F64.emax _ e1 loc_Exact) as [mrs2 e2] eqn:E2.
  destruct (shr_fexp_spec _ _ _ _ _ Hmx E1) as (k1 & Hk1 & -> & Hm1).
  pose proof (round_nearest_even_bounds (shr_m mrs1) (loc_of_shr_record mrs1)) as Hr.
  set (m2 := round_nearest_even (shr_m mrs1) (loc_of_shr_record mrs1)) in *.
  assert (H1 : (0 <= shr_m mrs1)%Z) by (rewrite Hm1; apply Z.div_pos; lia).
  assert (H2 : (0 <= m2)%Z) by lia.
  destruct (shr_fexp_spec _ _ _ _ _ H2 E2) as (k2 & Hk2 & -> & Hm3).
  destruct (shr_m mrs2) as [|p|p] eqn:Em; try discriminate.
  destruct (_ <=? _)%Z; try discriminate.
  injection E as <- <- <-. split; [reflexivity|].
  destruct (truncate_bracket mx ex k1 Hmx Hk1) as [Ta Tb].
  destruct (truncate_bracket m2 (ex + k1) k2 H2 Hk2) as [Tc Td].
  rewrite <- Hm1 in Ta, Tb. rewrite <- Hm3 in Tc, Td.
  assert (HB : powerRZ 2 (ex + k1) <= powerRZ 2 (ex + k1 + k2)).
  { rewrite (bpow_add (ex + k1) k2), (bpow_IZR k2 Hk2).
    pose proof (bpow_pos (ex + k1)).
    assert (1 <= IZR (2 ^ k2)) by (apply IZR_le; pose proof (Z.pow_pos_nonneg 2 k2); lia).
    nra. }
  pose proof (bpow_pos (ex + k1)) as HA.
  rewrite !plus_IZR in Tb, Td. rewrite plus_IZR in Hhi.
  assert (Hx1 : IZR (shr_m mrs1) <= IZR m2 <= IZR (shr_m mrs1) + 1)
    by (split; [apply IZR_le; lia | rewrite <- plus_IZR; apply IZR_le; lia]).
  assert (P1 : (IZR m2 - IZR (shr_m mrs1)) * powerRZ 2 (ex + k1)
               <= 1 * powerRZ 2 (ex + k1))
    by (apply Rmult_le_compat_r; lra).
  assert (P2 : IZR (shr_m mrs1) * powerRZ 2 (ex + k1)
               <= IZR m2 * powerRZ 2 (ex + k1))
    by (apply Rmult_le_compat_r; lra).
  apply Rabs_le. split; lra.
Qed.

Lemma digits2_pos_lower (m : positive) :
  (2 ^ (Zpos (digits2_pos m) - 1) <= Zpos m)%Z.
Proof.
  induction m as [p IH|p IH|]; simpl digits2_pos; [| |simpl; lia].
  all: rewrite Pos2Z.inj_succ;
    replace (Z.succ (Z.pos (digits2_pos p)) - 1)%Z
      with ((Z.pos (digits2_pos p) - 1) + 1)%Z by lia;
    rewrite Z.pow_add_r, Z.pow_1_r by lia; lia.
Qed.

(** One unit in the last place of a normal float is at most [2^-52]
    times its magnitude. *)
Lemma ulp_normal (m : positive) (e : Z) :
  Zpos (digits2_pos m) = F64.prec ->
  powerRZ 2 e <= powerRZ 2 (-52) * (IZR (Zpos m) * powerRZ 2 e).
Proof.
  intros H. pose proof (digits2_pos_lower m) as L. rewrite H in L.
  change (F64.prec - 1)%Z with 52%Z in L.
  apply IZR_le in L. rewrite <- (bpow_IZR 52) in L by lia.
  pose proof (bpow_pos e) as He.
  assert (E1 : powerRZ 2 (-52) * powerRZ 2 52 = 1)
    by (rewrite <- bpow_add; reflexivity).
  pose proof (bpow_pos (-52)) as Hn.
  assert (1 <= powerRZ 2 (-52) * IZR (Z.pos m)) by nra.
  nra.
Qed.

Lemma sg_xorb (a b : bool) : F64.sg (xorb a b) = F64.sg a * F64.sg b.
Proof. destruct a, b; simpl; lra. Qed.

Lemma Rabs_sg (b : bool) (x : R) : Rabs (F64.sg b * x) = Rabs x.
Proof.
  destruct b; simpl.
  - replace (-1 * x) with (- x) by ring. apply Rabs_Ropp.
  - f_equal. ring.
Qed.

Lemma to_R_finite (s : bool) (m : positive) (e : Z) :
  F64.to_R (S754_finite s m e) = F64.sg s * (IZR (Zpos m) * powerRZ 2 e).
Proof. reflexivity. Qed.

(** A finite product is within one unit in the last place of the exact
    product of its finite factors. *)
Lemma mul_accuracy (x y : float) (s : bool) (m : positive) (e : Z) :
  F64.mul x y = S754_finite s m e ->
  Rabs (F64.to_R (F64.mul x y) - F64.to_R x * F64.to_R y) <= powerRZ 2 e.
Proof.
  intros E. rewrite E.
  destruct x as [sx|sx| |sx mx ex], y as [sy|sy| |sy my ey]; try discriminate.
  unfold F64.mul, SFmul in E.
  destruct (binary_round_aux_accuracy _ _ _ _ _ _ _
              (IZR (Zpos (mx * my)) * powerRZ 2 (ex + ey))
              (Pos2Z.is_nonneg _) E) as [-> H].
  { split; [lra|]. rewrite plus_IZR. pose proof (bpow_pos (ex + ey)). lra. }
  rewrite !to_R_finite, sg_xorb.
  replace (F64.sg sx * F64.sg sy * (IZR (Z.pos m) * powerRZ 2 e)
           - F64.sg sx * (IZR (Z.pos mx) * powerRZ 2 ex)
             * (F64.sg sy * (IZR (Z.pos my) * powerRZ 2 ey)))
    with (F64.sg sx * (F64.sg sy * (IZR (Z.pos m) * powerRZ 2 e
                            - IZR (Z.pos (mx * my)) * powerRZ 2 (ex + ey)))).
  - rewrite !Rabs_sg. exact H.
  - rewrite Pos2Z.inj_mul, mult_IZR, bpow_add. ring.
Qed.

(** The integer quotient that [SFdiv] rounds brackets the exact quotient
    of the two magnitudes. *)
Lemma div_core_bracket (mx my : positive) (ex ey : Z)
      (q e' : Z) (l : SpecFloat.location) :
  SFdiv_core_binary F64.prec F64.emax (Zpos mx) ex (Zpos my) ey = (q, e', l) ->
  (0 <= q)%Z
  /\ IZR q * powerRZ 2 e'
     <= IZR (Zpos mx) * powerRZ 2 ex / (IZR (Zpos my) * powerRZ 2 ey)
     < IZR (q + 1) * powerRZ 2 e'.
Proof.
  unfold SFdiv_core_binary.
  set (e0 := Z.min _ (ex - ey)).
  assert (He0 : (e0 <= ex - ey)%Z) by apply Z.le_min_r.
  set (s := (ex - ey - e0)%Z).
  assert (Hs : (0 <= s)%Z) by (unfold s; lia).
  assert (Hm : match s with
               | Zpos _ => Z.shiftl (Zpos mx) s
               | Z0 => Zpos mx
               | Zneg _ => 0%Z
               end = (Zpos mx * 2 ^ s)%Z).
  { destruct s as [|p|p] eqn:Es; [simpl; lia | | lia].
    apply Z.shiftl_mul_pow2. lia. }
  rewrite Hm.
  pose proof (Z_div_mod (Zpos mx * 2 ^ s) (Zpos my) ltac:(lia)) as D.
  destruct (Z.div_eucl (Zpos mx * 2 ^ s) (Zpos my)) as [q0 r0].
  destruct D as [Dq Dr]. intros [= <- <- _].
  assert (Hq : (0 <= q0)%Z).
  { assert (0 < 2 ^ s)%Z by (apply Z.pow_pos_nonneg; lia). nia. }
  split; [exact Hq|].
  assert (Hex : powerRZ 2 ex = IZR (2 ^ s) * powerRZ 2 e0 * powerRZ 2 ey).
  { rewrite <- (bpow_IZR s Hs), <- !bpow_add. f_equal. unfold s. lia. }
  apply (f_equal IZR) in Dq. rewrite plus_IZR, !mult_IZR in Dq.
  pose proof (bpow_pos e0) as P0. pose proof (bpow_pos ey) as Py.
  assert (Hy : 0 < IZR (Zpos my)) by (apply IZR_lt; lia).
  assert (Hr0 : 0 <= IZR r0 < IZR (Zpos my))
    by (split; [apply IZR_le | apply IZR_lt]; lia).
  assert (Ev : IZR (Zpos mx) * powerRZ 2 ex / (IZR (Zpos my) * powerRZ 2 ey)
               = (IZR q0 + IZR r0 / IZR (Zpos my)) * powerRZ 2 e0).
  { rewrite Hex.
    replace (IZR (Z.pos mx) * (IZR (2 ^ s) * powerRZ 2 e0 * powerRZ 2 ey))
      with ((IZR (Z.pos my) * IZR q0 + IZR r0) * powerRZ 2 e0 * powerRZ 2 ey)
      by (rewrite <- Dq; ring).
    field. lra. }
  rewrite Ev, plus_IZR.
  assert (Hf : 0 <= IZR r0 / IZR (Zpos my) < 1).
  { split.
    - apply Rle_mult_inv_pos; lra.
    - apply (Rmult_lt_reg_r (IZR (Zpos my))); [exact Hy|].
      unfold Rdiv. rewrite Rmult_assoc, Rinv_l by lra. lra. }
  split.
  - apply Rmult_le_compat_r; lra.
  - apply Rmult_lt_compat_r; lra.
Qed.

(** A finite quotient comes from two finite operands and is within one
    unit in the last place of their exact quotient. *)
Lemma div_accuracy (x y : float) (s : bool) (m : positive) (e : Z) :
  F64.div x y = S754_finite s m e ->
  F64.to_R y <> 0
  /\ Rabs (F64.to_R (F64.div x y) - F64.to_R x / F64.to_R y) <= powerRZ 2 e.
Proof.
  intros E. rewrite E.
  destruct x as [sx|sx| |sx mx ex], y as [sy|sy| |sy my ey]; try discriminate.
  unfold F64.div, SFdiv in E.
  destruct (SFdiv_core_binary _ _ _ _ _ _) as [[q e'] l] eqn:Ec.
  destruct (div_core_bracket _ _ _ _ _ _ _ Ec) as [Hq Hb].
  destruct (binary_round_aux_accuracy _ _ _ _ _ _ _ _ Hq E Hb) as [-> H].
  assert (Hy : 0 < IZR (Zpos my) * powerRZ 2 ey).
  { apply Rmult_lt_0_compat; [apply IZR_lt; lia | apply bpow_pos]. }
  rewrite !to_R_finite, sg_xorb.
  assert (Hsy : F64.sg sy <> 0) by (destruct sy; simpl; lra).
  split; [apply Rmult_integral_contrapositive_currified; lra|].
  replace (F64.sg sx * F64.sg sy * (IZR (Z.pos m) * powerRZ 2 e)
           - F64.sg sx * (IZR (Z.pos mx) * powerRZ 2 ex)
             / (F64.sg sy * (IZR (Z.pos my) * powerRZ 2 ey)))
    with (F64.sg sx * (F64.sg sy * (IZR (Z.pos m) * powerRZ 2 e
                            - IZR (Z.pos mx) * powerRZ 2 ex
                              / (IZR (Z.pos my) * powerRZ 2 ey)))).
  - rewrite !Rabs_sg. exact H.
  - pose proof (bpow_pos ey) as Pe.
    assert (Pm : 0 < IZR (Zpos my)) by (apply IZR_lt; lia).
    destruct sy; unfold F64.sg; field; split; lra.
Qed.

(** Two roundings in a row, each relatively accurate to [d]. *)
Lemma two_roundings (a b c d : R) :
  0 <= d <= 1 / 4 ->
  Rabs (b - a) <= d * Rabs b ->
  Rabs (c - b) <= d * Rabs c ->
  Rabs (c - a) <= 4 * d * Rabs a.
Proof.
  intros [Hd0 Hd1] Hab Hbc.
  pose proof (Rabs_pos a) as Pa. pose proof (Rabs_pos b) as Pb.
  pose proof (Rabs_pos c) as Pc.
  assert (Tb : Rabs b <= Rabs a + Rabs (b - a)).
  { replace b with (a + (b - a)) at 1 by ring. apply Rabs_triang. }
  assert (Tc : Rabs c <= Rabs b + Rabs (c - b)).
  { replace c with (b + (c - b)) at 1 by ring. apply Rabs_triang. }
  assert (Tg : Rabs (c - a) <= Rabs (c - b) + Rabs (b - a)).
  { replace (c - a) with ((c - b) + (b - a)) by ring. apply Rabs_triang. }
  assert (Xb : d * Rabs b <= 1 / 4 * Rabs b) by (apply Rmult_le_compat_r; lra).
  assert (Xc : d * Rabs c <= 1 / 4 * Rabs c) by (apply Rmult_le_compat_r; lra).
  assert (Hsum : Rabs b + Rabs c <= 4 * Rabs a) by lra.
  assert (Hd : d * (Rabs b + Rabs c) <= d * (4 * Rabs a))
    by (apply Rmult_le_compat_l; lra).
  lra.
Qed.

Lemma Rabs_to_R_finite (s : bool) (m : positive) (e : Z) :
  Rabs (F64.to_R (S754_finite s m e)) = IZR (Zpos m) * powerRZ 2 e.
Proof.
  rewrite to_R_finite, Rabs_sg. apply Rabs_pos_eq.
  apply Rmult_le_pos; [apply IZR_le; lia | left; apply bpow_pos].
Qed.

Lemma isnormal_inv (x : float) :
  F64.isnormal x = true ->
  exists s m e, x = S754_finite s m e /\ Zpos (digits2_pos m) = F64.prec.
Proof.
  destruct x as [s|s| |s m e]; try discriminate.
  unfold F64.isnormal. intros H. apply Z.eqb_eq in H. eauto.
Qed.

Lemma bpow_m52 : 0 <= powerRZ 2 (-52) <= 1 / 4.
Proof.
  pose proof (bpow_pos (-52)) as P.
  assert (E : powerRZ 2 (-52) * powerRZ 2 52 = 1)
    by (rewrite <- bpow_add; reflexivity).
  rewrite (bpow_IZR 52) in E by lia.
  change (2 ^ 52)%Z with 4503599627370496%Z in E.
  lra.
Qed.

Lemma bpow_m50 : powerRZ 2 (-50) = 4 * powerRZ 2 (-52).
Proof.
  change (-50)%Z with (2 + -52)%Z. rewrite bpow_add.
  f_equal. simpl. lra.
Qed.

(** Dividing by [s] and multiplying by [s] again gives [p] back up to a
    relative error of [2^-50], provided the quotient and the product are
    normal numbers: no overflow, no underflow. *)
Lemma round_trip_accuracy (p s : float) :
  F64.isnormal (F64.div p s) = true ->
  F64.isnormal (F64.mul (F64.div p s) s) = true ->
  within_tolerance (powerRZ 2 (-50)) (F64.mul (F64.div p s) s) p.
Proof.
  intros Hq Ht.
  destruct (isnormal_inv _ Hq) as (sq & mq & eq & Eq & Dq).
  destruct (isnormal_inv _ Ht) as (st & mt & et & Et & Dt).
  destruct (div_accuracy p s sq mq eq Eq) as [Hs Aq].
  pose proof (mul_accuracy (F64.div p s) s st mt et Et) as At.
  assert (Hp : exists sp mp ep, p = S754_finite sp mp ep).
  { destruct p as [sp|sp| |sp mp ep], s as [ss|ss| |ss ms es];
      try discriminate; eauto. }
  destruct Hp as (sp & mp & ep & Ep).
  set (P := F64.to_R p) in *. set (S := F64.to_R s) in *.
  set (Q := F64.to_R (F64.div p s)) in *.
  set (T := F64.to_R (F64.mul (F64.div p s) s)) in *.
  assert (Bq : powerRZ 2 eq <= powerRZ 2 (-52) * Rabs Q).
  { unfold Q. rewrite Eq, Rabs_to_R_finite. apply ulp_normal, Dq. }
  assert (Bt : powerRZ 2 et <= powerRZ 2 (-52) * Rabs T).
  { unfold T. rewrite Et, Rabs_to_R_finite. apply ulp_normal, Dt. }
  assert (G : Rabs (T - P) <= 4 * powerRZ 2 (-52) * Rabs P).
  { apply (two_roundings P (Q * S) T); [apply bpow_m52 | | lra].
    replace (Q * S - P) with ((Q - P / S) * S) by (field; exact Hs).
    rewrite !Rabs_mult.
    rewrite <- Rmult_assoc.
    apply Rmult_le_compat_r; [apply Rabs_pos | lra]. }
  rewrite <- bpow_m50 in G.
  unfold within_tolerance. fold T. subst P T.
  rewrite Et in *. rewrite Ep in *. exact G.
Qed.

Local Close Scope R_scope.

(** ** The column price_per_sqft *)

(** Where total_sqft is zero or infinite the quotient is an infinity, a
    zero or NaN, and multiplying it back gives NaN. *)
Lemma round_trip_degenerate (p s : float) :
  F64.isnan s = false -> F64.isnormal s = false ->
  match s with S754_finite _ _ _ => False | _ => True end ->
  F64.mul (F64.div p s) s = F64.nan.
Proof.
  destruct s as [ss|ss| |ss ms es]; simpl; intros _ _ H; try contradiction;
    destruct p as [sp|sp| |sp mp ep]; reflexivity.
Qed.

(** A zero or an infinity divided by a finite nonzero number and
    multiplied by it again comes back unchanged, sign included. *)
Lemma round_trip_exact (p : float) (ss : bool) (ms : positive) (es : Z) :
  match p with S754_zero _ | S754_infinity _ => True | _ => False end ->
  F64.mul (F64.div p (S754_finite ss ms es)) (S754_finite ss ms es) = p.
Proof.
  destruct p as [sp|sp| |sp mp ep]; simpl; intros H; try contradiction;
    destruct sp, ss; reflexivity.
Qed.

(** Four rows that survive with a total_sqft greater than 0 or a positive
    price and do not round-trip.  With a total_sqft of +infinity
    price_per_sqft is 5000000/inf = 0.0 and 0.0 * inf is NaN.  With a
    price of 1e303 and a total_sqft of 0.001 the quotient overflows:
    price_per_sqft is +inf and so is the product, within no tolerance of
    the finite 1e308.  In a column of
    integers the price 92233720368548 times 100000 exceeds 2^63 and wraps
    to a negative number: price_per_sqft is negative, not the quotient of
    9223372036854800000 by 1000.  And a total_sqft of 0 survives as well:
    price_per_sqft is computed there too, as +inf. *)
Lemma C7_counterexample :
  (load_data (table_with "2 BHK" "inf")
   = Ok [scenario_cleaned; test_cleaned "2 BHK" "inf" 2]
   /\ F64.ltb (S754_zero false)
              (total_sqft (base (cols (test_cleaned "2 BHK" "inf" 2)))) = true
   /\ price_per_sqft (test_cleaned "2 BHK" "inf" 2) = S754_zero false
   /\ round_trip (test_cleaned "2 BHK" "inf" 2) = F64.nan
   /\ forall tol,
        ~ within_tolerance tol (round_trip (test_cleaned "2 BHK" "inf" 2))
                               (price_in_units (test_cleaned "2 BHK" "inf" 2)))
  /\ (load_data huge_price_table = Ok [expected_row huge_price_row 2]
      /\ F64.ltb (S754_zero false)
                 (total_sqft (base (cols (expected_row huge_price_row 2)))) = true
      /\ F64.isfinite (total_sqft (base (cols (expected_row huge_price_row 2)))) = true
      /\ F64.isfinite (price_in_units (expected_row huge_price_row 2)) = true
      /\ price_per_sqft (expected_row huge_price_row 2) = F64.pinf
      /\ round_trip (expected_row huge_price_row 2) = F64.pinf
      /\ forall tol,
           ~ within_tolerance tol (round_trip (expected_row huge_price_row 2))
                                  (price_in_units (expected_row huge_price_row 2)))
  /\ (load_data big_price_table
      = Ok [scenario_cleaned; expected_row big_price_row 2]
      /\ 0 < 92233720368548
      /\ price_per_sqft (expected_row big_price_row 2)
         = F64.div (F64.of_Z (-9223372036854751616)) (F64.of_Z 1000)
      /\ price_per_sqft (expected_row big_price_row 2)
         <> F64.div (F64.of_Z (92233720368548 * 100000)) (F64.of_Z 1000)
      /\ F64.sign (price_per_sqft (expected_row big_price_row 2)) = Some true
      /\ F64.sign (round_trip (expected_row big_price_row 2)) = Some true)
  /\ (load_data (table_with "2 BHK" "0")
      = Ok [scenario_cleaned; test_cleaned "2 BHK" "0" 2]
      /\ total_sqft (base (cols (test_cleaned "2 BHK" "0" 2))) = S754_zero false
      /\ price_per_sqft (test_cleaned "2 BHK" "0" 2) = F64.pinf).
Proof.
  assert (E : round_trip (test_cleaned "2 BHK" "inf" 2) = F64.nan)
    by (vm_compute; reflexivity).
  assert (E' : round_trip (expected_row huge_price_row 2) = F64.pinf)
    by (vm_compute; reflexivity).
  assert (F' : F64.isfinite (price_in_units (expected_row huge_price_row 2)) = true)
    by (vm_compute; reflexivity).
  split; [|split; [|split]].
  - split; [vm_compute; reflexivity|].
    split; [vm_compute; reflexivity|].
    split; [vm_compute; reflexivity|].
    split; [exact E|].
    intros tol. unfold within_tolerance. rewrite E. intros H. exact H.
  - split; [vm_compute; reflexivity|].
    split; [vm_compute; reflexivity|].
    split; [vm_compute; reflexivity|].
    split; [exact F'|].
    split; [vm_compute; reflexivity|].
    split; [exact E'|].
    intros tol. unfold within_tolerance. rewrite E'. clear E E'.
    destruct (price_in_units _); simpl in F'; try (discriminate F');
      intros H; exact H.
  - split; [vm_compute; reflexivity|].
    split; [lia|].
    split; [vm_compute; reflexivity|].
    split; [vm_compute; discriminate|].
    split; vm_compute; reflexivity.
  - vm_compute. repeat split.
Qed.

(** C7 (amended). On every row of the cleaned table price_per_sqft is the
    binary64 quotient by total_sqft of the product price * 100000 as the
    program computes it (in 64-bit integers with wrap-around for a column
    of integers, in binary64 for a column of floats), whatever total_sqft
    is.  Where that quotient and the product price_per_sqft * total_sqft
    are normal numbers (nothing overflowed or underflowed), the product is
    within the relative tolerance [2^-50] of price * 100000; where
    total_sqft is finite and not zero and price * 100000 is zero or
    infinite, the product gives it back exactly; where total_sqft is zero
    or infinite, the product is NaN. *)
Theorem C7_price_per_sqft_round_trip
        (df : list raw_row) (out : list clean_row) (c : clean_row) :
  load_data df = Ok out -> In c out ->
  price_per_sqft c = F64.div (price_in_units c) (total_sqft (base (cols c)))
  /\ (F64.isnormal (price_per_sqft c) = true ->
      F64.isnormal (round_trip c) = true ->
      within_tolerance (powerRZ 2 (-50)) (round_trip c) (price_in_units c))
  /\ (match total_sqft (base (cols c)), price_in_units c with
      | S754_finite _ _ _, (S754_zero _ | S754_infinity _) =>
          round_trip c = price_in_units c
      | S754_finite _ _ _, _ => True
      | _, _ => round_trip c = F64.nan
      end).
Proof.
  intros E Hin.
  destruct (load_data_inv df out c E Hin) as (r & _ & (_ & _ & Hc) & _ & Hcrit & _).
  assert (Hq : price_per_sqft c
               = F64.div (price_in_units c) (total_sqft (base (cols c)))).
  { unfold with_price_per_sqft, per_sqft in Hc. unfold price_in_units.
    destruct (price (base (cols c))) as [n|f|t]; simpl in Hc; try discriminate;
      injection Hc as Hc; apply (f_equal price_per_sqft) in Hc;
      simpl in Hc; symmetry; exact Hc. }
  split; [exact Hq|]. split.
  - unfold round_trip. rewrite Hq. apply round_trip_accuracy.
  - split_critical Hcrit.
    unfold round_trip. rewrite Hq.
    destruct (total_sqft (base (cols c))) as [ss|ss| |ss ms es] eqn:Es;
      try discriminate.
    + destruct (price_in_units c); apply round_trip_degenerate; reflexivity.
    + destruct (price_in_units c); apply round_trip_degenerate; reflexivity.
    + destruct (price_in_units c) eqn:Ep; try exact I;
        apply round_trip_exact; exact I.
Qed.

Lemma C7_witness :
  price_per_sqft scenario_cleaned
  = F64.div (price_in_units scenario_cleaned)
            (total_sqft (base (cols scenario_cleaned)))
  /\ within_tolerance (powerRZ 2 (-50)) (round_trip scenario_cleaned)
                      (price_in_units scenario_cleaned).
Proof.
  destruct (C7_price_per_sqft_round_trip scenario [scenario_cleaned] scenario_cleaned)
    as (Hq & Ht & _).
  - vm_compute. reflexivity.
  - left. reflexivity.
  - split; [exact Hq|]. apply Ht; vm_compute; reflexivity.
Defined.

(** A price of 0 round-trips exactly: price_per_sqft is 0.0 and so is
    its product with total_sqft. *)
Example zero_price_round_trip :
  load_data [free_row] = Ok [expected_row free_row 2]
  /\ price_per_sqft (expected_row free_row 2) = S754_zero false
  /\ round_trip (expected_row free_row 2) = price_in_units (expected_row free_row 2).
Proof. vm_compute. repeat split. Qed.

(** * Further properties of the program *)

(** ** [load_data] and the rows of the table *)

Lemma apply_each_app {A B : Type} (f : A -> result B) (xs ys : list A) :
  apply_each f (xs ++ ys)%list
  = (a <- apply_each f xs ;; b <- apply_each f ys ;; Ok (a ++ b)%list).
Proof.
  induction xs as [|x rest IH]; simpl.
  - destruct (apply_each f ys); reflexivity.
  - destruct (f x) as [y|e]; simpl; [|reflexivity].
    rewrite IH.
    destruct (apply_each f rest) as [a|e]; simpl; [|reflexivity].
    destruct (apply_each f ys); reflexivity.
Qed.

Lemma apply_each_Ok_In {A B : Type} (f : A -> result B)
      (xs : list A) (ys : list B) (x : A) :
  apply_each f xs = Ok ys -> In x xs -> exists y, f x = Ok y /\ In y ys.
Proof.
  intros E. apply apply_each_Forall2 in E.
  induction E as [|x' y' xs' ys' Hxy _ IH]; simpl; [contradiction|].
  intros [<-|Hin].
  - exists y'. auto.
  - destruct (IH Hin) as (y & Hy & Hiny). exists y. auto.
Qed.

Lemma apply_each_Raise_inv {A B : Type} (f : A -> result B) (xs : list A) (e : exn) :
  apply_each f xs = Raise e -> exists x, In x xs /\ f x = Raise e.
Proof.
  induction xs as [|x rest IH]; simpl; [discriminate|].
  destruct (f x) as [y|e'] eqn:Ex; simpl.
  - destruct (apply_each f rest) as [ys|e'']; simpl; [discriminate|].
    intros [= <-]. destruct (IH eq_refl) as (x' & Hin & Hx'). eauto.
  - intros [= <-]. eauto.
Qed.

Lemma with_price_per_sqft_cols (b : bhk_row) (c : clean_row) :
  with_price_per_sqft b = Ok c -> cols c = b.
Proof.
  unfold with_price_per_sqft.
  destruct (per_sqft _ _); simpl; [|discriminate].
  intros [= <-]. reflexivity.
Qed.

(** The division of line 37 raises on a text price only, and then a
    TypeError. *)
Lemma with_price_per_sqft_raises (b : bhk_row) (e : exn) :
  with_price_per_sqft b = Raise e ->
  e = TypeError /\ exists s, price (base b) = PStr s.
Proof.
  unfold with_price_per_sqft, per_sqft.
  destruct (price (base b)) as [n|f|s]; simpl; try discriminate.
  intros [= <-]. eauto.
Qed.

(** When [load_data] returns, the cleaned table of two tables put one
    after the other is the cleaned table of the first followed by that of
    the second. *)
Lemma load_data_app_ok (df1 df2 : list raw_row) (out : list clean_row) :
  load_data (df1 ++ df2)%list = Ok out <->
  exists a b, load_data df1 = Ok a /\ load_data df2 = Ok b /\ out = (a ++ b)%list.
Proof.
  unfold load_data.
  rewrite map_app, filter_app, apply_each_app.
  destruct (apply_each with_bhk (filter _ (map with_sqft df1))) as [a|e]; simpl;
    [|split; [discriminate | intros (x & y & H & _); discriminate H]].
  destruct (apply_each with_bhk (filter _ (map with_sqft df2))) as [b|e]; simpl;
    [|split; [discriminate | intros (x & y & _ & H & _); discriminate H]].
  rewrite filter_app, apply_each_app.
  destruct (apply_each with_price_per_sqft (filter critical_notna a)) as [x|e]; simpl;
    [|split; [discriminate | intros (u & v & H & _); discriminate H]].
  destruct (apply_each with_price_per_sqft (filter critical_notna b)) as [y|e]; simpl;
    [|split; [discriminate | intros (u & v & _ & H & _); discriminate H]].
  rewrite filter_app. split.
  - intros [= <-]. eauto.
  - intros (u & v & [= <-] & [= <-] & ->). reflexivity.
Qed.

(** What [load_data] does with a table of one row. *)
Lemma load_data_one (r : raw_row) :
  load_data [r]
  = if notna (raw_size r) then
      b <- derive_bhk (raw_size r) ;;
      if critical_notna (mk_bhk (with_sqft r) b) then
        c <- with_price_per_sqft (mk_bhk (with_sqft r) b) ;;
        Ok (if bhk_lt b 10 then [c] else [])
      else Ok []
    else Ok [].
Proof.
  unfold load_data. simpl.
  destruct (notna (raw_size r)); simpl; [|reflexivity].
  unfold with_bhk. simpl.
  destruct (derive_bhk (raw_size r)) as [b|e]; simpl; [|reflexivity].
  destruct (critical_notna _); simpl; [|reflexivity].
  destruct (with_price_per_sqft _) as [c|e] eqn:Ec; simpl; [|reflexivity].
  rewrite (with_price_per_sqft_cols _ _ Ec). simpl.
  destruct (bhk_lt b 10); reflexivity.
Qed.

Lemma load_data_cons_ok (r : raw_row) (df : list raw_row) (out : list clean_row) :
  load_data (r :: df) = Ok out <->
  exists a b, load_data [r] = Ok a /\ load_data df = Ok b /\ out = (a ++ b)%list.
Proof. apply (load_data_app_ok [r] df). Qed.

(** X2. The cleaned table keeps the order of the raw table: its rows come
    one for one from a selection of the raw rows, taken in their order, so
    it is never longer than the raw table. *)
Theorem X2_load_data_keeps_order (df : list raw_row) (out : list clean_row) :
  load_data df = Ok out ->
  exists kept,
    subseq kept df /\ Forall2 derived_from kept out
    /\ (List.length out <= List.length df)%nat.
Proof.
  revert out. induction df as [|r df IH]; intros out E.
  - injection E as <-. exists []. repeat split; constructor.
  - apply load_data_cons_ok in E as (a & b & Ea & Eb & ->).
    destruct (IH b Eb) as (kept & Hs & Hf & Hl).
    assert (Skip : exists kept0,
               subseq kept0 (r :: df) /\ Forall2 derived_from kept0 ([] ++ b)%list
               /\ (List.length ([] ++ b)%list <= List.length (r :: df))%nat).
    { exists kept.
      repeat split; [apply subseq_skip; exact Hs | exact Hf | simpl; lia]. }
    rewrite load_data_one in Ea.
    destruct (notna (raw_size r)); [|injection Ea as <-; exact Skip].
    destruct (derive_bhk (raw_size r)) as [v|e] eqn:Ev; simpl in Ea; [|discriminate].
    destruct (critical_notna _); [|injection Ea as <-; exact Skip].
    destruct (with_price_per_sqft _) as [c|e] eqn:Ec; simpl in Ea; [|discriminate].
    destruct (bhk_lt v 10); injection Ea as <-; [|exact Skip].
    exists (r :: kept). repeat split.
    + apply subseq_keep. exact Hs.
    + simpl. constructor; [|exact Hf].
      pose proof (with_price_per_sqft_cols _ _ Ec) as Hc.
      unfold derived_from. rewrite Hc. simpl. auto.
    + simpl. simpl in Hl. lia.
Qed.

Lemma X2_witness :
  exists kept,
    subseq kept scenario /\ Forall2 derived_from kept [scenario_cleaned]
    /\ (List.length [scenario_cleaned] <= List.length scenario)%nat.
Proof.
  apply (X2_load_data_keeps_order scenario [scenario_cleaned]).
  vm_compute. reflexivity.
Defined.

Lemma apply_each_In_image {A B : Type} (f : A -> result B)
      (xs : list A) (ys : list B) (x : A) (y : B) :
  apply_each f xs = Ok ys -> In x xs -> f x = Ok y -> In y ys.
Proof.
  intros E. apply apply_each_Forall2 in E.
  induction E as [|x' y' xs' ys' Hxy _ IH]; simpl; [contradiction|].
  intros [<-|Hin] Hf; [left; congruence | right; auto].
Qed.

(** X3. Nothing valid is lost: when [load_data] returns, every raw row
    whose size gives an integer BHK below 10 and whose cleaned total_sqft,
    price and location are present has its cleaned row in the result. *)
Theorem X3_valid_rows_are_kept
        (df : list raw_row) (out : list clean_row) (r : raw_row) (n : Z) :
  load_data df = Ok out -> In r df ->
  derive_bhk (raw_size r) = Ok (BInt n) -> n < 10 ->
  F64.isnan (clean_sqft (raw_total_sqft r)) = false ->
  price_isna (raw_price r) = false ->
  isna (raw_location r) = false ->
  In (cleaned_as r n) out.
Proof.
  unfold load_data. intros E Hr Hb Hn Hs Hp Hl.
  destruct (apply_each with_bhk _) as [df3|] eqn:E3; simpl in E; [|discriminate].
  destruct (apply_each with_price_per_sqft _) as [df5|] eqn:E5; simpl in E;
    [|discriminate].
  injection E as <-.
  assert (Hsize : notna (raw_size r) = true).
  { destruct (raw_size r); [reflexivity | discriminate]. }
  assert (H3 : In (mk_bhk (with_sqft r) (BInt n)) (filter critical_notna df3)).
  { apply filter_In. split.
    - apply (apply_each_In_image _ _ _ (with_sqft r) _ E3).
      + apply filter_In. split; [apply in_map; exact Hr | exact Hsize].
      + unfold with_bhk. simpl. rewrite Hb. reflexivity.
    - unfold critical_notna, notna. simpl. rewrite Hs, Hp, Hl. reflexivity. }
  destruct (apply_each_Ok_In _ _ _ _ E5 H3) as (c & Hc & Hin).
  assert (Ec : c = cleaned_as r n).
  { unfold with_price_per_sqft in Hc. simpl in Hc.
    unfold cleaned_as, expected_row.
    destruct (per_sqft _ _) as [v|e]; simpl in Hc; [|discriminate].
    injection Hc as <-. reflexivity. }
  subst c. apply filter_In. split; [exact Hin|].
  simpl. apply Z.ltb_lt. exact Hn.
Qed.

Lemma X3_witness : In (cleaned_as scenario_first 2) [scenario_cleaned].
Proof.
  apply (X3_valid_rows_are_kept scenario [scenario_cleaned] scenario_first 2);
    try (vm_compute; reflexivity).
  left. reflexivity.
Defined.

(** ** When [load_data] raises *)

Lemma int_digits_raises (s : string) (prev : ascii) (acc : Z) (n : nat) (e : exn) :
  int_digits prev acc n s = Raise e -> e = ValueError.
Proof.
  revert prev acc n. induction s as [|c t IH]; simpl; intros prev acc n.
  - destruct (Ascii.eqb prev "_"); [intros [= <-]; reflexivity | discriminate].
  - destruct (Ascii.eqb c "_").
    + destruct (Ascii.eqb prev "_"); [intros [= <-]; reflexivity | apply IH].
    + destruct (isdigit c); [apply IH|].
      destruct (Ascii.eqb prev "_"); [intros [= <-]; reflexivity | discriminate].
Qed.

Lemma py_int_raises (s : string) (e : exn) :
  py_int s = Raise e -> e = ValueError.
Proof.
  unfold py_int. destruct (take_sign _) as [neg body].
  destruct body as [|c t]; [intros [= <-]; reflexivity|].
  destruct (Ascii.eqb c "_"); [intros [= <-]; reflexivity|].
  destruct (int_digits _ _ _ _) as [[[v n] rest]|e'] eqn:Ed; simpl.
  - destruct (_ || _); [intros [= <-]; reflexivity | discriminate].
  - intros [= <-]. eapply int_digits_raises; eassumption.
Qed.

(** The lambda raises only on a text that mentions bedrooms and whose
    part before the first space is no integer, and then a ValueError. *)
Lemma derive_bhk_raises (x : cell) (e : exn) :
  derive_bhk x = Raise e ->
  e = ValueError /\ mentions_bedrooms x = true
  /\ py_int (before_first " " (py_str x)) = Raise ValueError.
Proof.
  unfold derive_bhk. destruct x as [s|]; simpl; [|discriminate].
  destruct (_ || _); [|discriminate].
  rewrite item0_split. simpl.
  destruct (py_int _) as [n|e'] eqn:En; simpl; [discriminate|].
  intros [= <-]. pose proof (py_int_raises _ _ En) as ->. auto.
Qed.

(** The rows of the frame after the lambda has run on every [size]. *)
Lemma with_bhk_rows (df : list raw_row) (df3 : list bhk_row) :
  apply_each with_bhk (filter (fun r => notna (size r)) (map with_sqft df)) = Ok df3 ->
  Forall (fun r => exists b, derive_bhk (raw_size r) = Ok b) df
  /\ (forall r b, In r df -> derive_bhk (raw_size r) = Ok b ->
                  critical_notna (mk_bhk (with_sqft r) b) = true ->
                  In (mk_bhk (with_sqft r) b) df3)
  /\ (forall q, In q df3 ->
                exists r, In r df /\ base q = with_sqft r
                          /\ derive_bhk (raw_size r) = Ok (BHK q)).
Proof.
  intros E3. split; [|split].
  - apply Forall_forall. intros r Hr.
    destruct (raw_size r) as [s|] eqn:Es; [|exists BNaN; reflexivity].
    assert (Hq : In (with_sqft r) (filter (fun r => notna (size r)) (map with_sqft df))).
    { apply filter_In. split; [apply in_map; exact Hr|]. simpl. rewrite Es. reflexivity. }
    destruct (apply_each_Ok_In _ _ _ _ E3 Hq) as (q & Hw & _).
    unfold with_bhk in Hw. simpl in Hw. rewrite Es in Hw.
    destruct (derive_bhk (CStr s)) as [v|e]; [eauto | discriminate].
  - intros r b Hr Hb Hcrit.
    apply (apply_each_In_image _ _ _ (with_sqft r) _ E3).
    + apply filter_In. split; [apply in_map; exact Hr|]. simpl.
      destruct (raw_size r); [reflexivity|].
      injection Hb as <-. discriminate.
    + unfold with_bhk. simpl. rewrite Hb. reflexivity.
  - intros q Hq.
    destruct (apply_each_In _ _ _ _ E3 Hq) as (p & Hp & Ew).
    apply filter_In in Hp as [Hp _].
    apply in_map_iff in Hp as (r & <- & Hr).
    unfold with_bhk in Ew. simpl in Ew.
    destruct (derive_bhk (raw_size r)) as [v|e] eqn:Ev; simpl in Ew; [|discriminate].
    injection Ew as <-. exists r. simpl. auto.
Qed.

Lemma reaches_division_spec (r : raw_row) :
  reaches_division r = true <->
  exists b, derive_bhk (raw_size r) = Ok b
            /\ critical_notna (mk_bhk (with_sqft r) b) = true.
Proof.
  unfold reaches_division. destruct (derive_bhk (raw_size r)) as [b|e]; split.
  - eauto.
  - intros (b' & [= <-] & H). exact H.
  - discriminate.
  - intros (b' & H & _). discriminate H.
Qed.

Lemma text_price_spec (r : raw_row) :
  text_price r = true <-> exists s, raw_price r = PStr s.
Proof.
  unfold text_price. destruct (raw_price r); split; try discriminate; eauto;
    intros [s H]; discriminate H.
Qed.

(** When [load_data] returns, the lambda raised on no [size] and no row
    with a text price reached the division. *)
Lemma load_data_ok_rows (df : list raw_row) (out : list clean_row) :
  load_data df = Ok out ->
  Forall (fun r => (exists b, derive_bhk (raw_size r) = Ok b)
                   /\ reaches_division r && text_price r = false) df.
Proof.
  unfold load_data. intros E.
  destruct (apply_each with_bhk _) as [df3|] eqn:E3; simpl in E; [|discriminate].
  destruct (apply_each with_price_per_sqft _) as [df5|] eqn:E5; simpl in E;
    [|discriminate].
  destruct (with_bhk_rows df df3 E3) as (Hok & Hin & _).
  rewrite Forall_forall in Hok. apply Forall_forall. intros r Hr.
  split; [apply Hok, Hr|].
  destruct (reaches_division r) eqn:Hd; [|reflexivity].
  destruct (text_price r) eqn:Ht; [|reflexivity].
  exfalso.
  apply reaches_division_spec in Hd as (b & Hb & Hcrit).
  apply text_price_spec in Ht as [s Hs].
  assert (H4 : In (mk_bhk (with_sqft r) b) (filter critical_notna df3))
    by (apply filter_In; split; [apply Hin; assumption | exact Hcrit]).
  destruct (apply_each_Ok_In _ _ _ _ E5 H4) as (c & Hc & _).
  unfold with_price_per_sqft, per_sqft in Hc. simpl in Hc.
  rewrite Hs in Hc. discriminate.
Qed.

(** When [load_data] raises, either the lambda raised a ValueError on
    some [size], or it raised on none and the division raised a TypeError
    on a row with a text price. *)
Lemma load_data_raise_inv (df : list raw_row) (e : exn) :
  load_data df = Raise e ->
  (e = ValueError
   /\ Exists (fun r => derive_bhk (raw_size r) = Raise ValueError) df)
  \/ (e = TypeError
      /\ Forall (fun r => exists b, derive_bhk (raw_size r) = Ok b) df
      /\ Exists (fun r => reaches_division r && text_price r = true) df).
Proof.
  unfold load_data. intros E.
  destruct (apply_each with_bhk _) as [df3|e3] eqn:E3; simpl in E.
  - right.
    destruct (apply_each with_price_per_sqft _) as [df5|e5] eqn:E5; simpl in E;
      [discriminate|].
    injection E as <-.
    destruct (with_bhk_rows df df3 E3) as (Hok & _ & Hfrom).
    destruct (apply_each_Raise_inv _ _ _ E5) as (q & Hq & Hw).
    apply with_price_per_sqft_raises in Hw as [-> [s Hs]].
    apply filter_In in Hq as [Hq Hcrit].
    destruct (Hfrom q Hq) as (r & Hr & Hbase & Hb).
    split; [reflexivity|]. split; [exact Hok|].
    apply Exists_exists. exists r. split; [exact Hr|].
    apply andb_true_iff. split.
    + apply reaches_division_spec. exists (BHK q). split; [exact Hb|].
      rewrite <- Hbase. destruct q; exact Hcrit.
    + apply text_price_spec. exists s.
      rewrite Hbase in Hs. exact Hs.
  - left. injection E as <-.
    destruct (apply_each_Raise_inv _ _ _ E3) as (q & Hq & Hw).
    apply filter_In in Hq as [Hq _].
    apply in_map_iff in Hq as (r & <- & Hr).
    unfold with_bhk in Hw. simpl in Hw.
    destruct (derive_bhk (raw_size r)) as [v|e'] eqn:Ev; simpl in Hw; [discriminate|].
    injection Hw as <-.
    destruct (derive_bhk_raises _ _ Ev) as (-> & _).
    split; [reflexivity|].
    apply Exists_exists. exists r. auto.
Qed.

(** One [size] on which the lambda raises makes [load_data] raise
    ValueError. *)
Lemma load_data_value_error (df : list raw_row) :
  Exists (fun r => derive_bhk (raw_size r) = Raise ValueError) df ->
  load_data df = Raise ValueError.
Proof.
  intros H. apply Exists_exists in H as (r & Hr & Hraise).
  assert (No : ~ exists b, derive_bhk (raw_size r) = Ok b)
    by (intros [b Hb]; congruence).
  destruct (load_data df) as [out|e] eqn:E.
  - exfalso. apply No.
    pose proof (load_data_ok_rows df out E) as Hall.
    rewrite Forall_forall in Hall. apply (Hall r Hr).
  - destruct (load_data_raise_inv df e E) as [[-> _]|(_ & Hall & _)]; [reflexivity|].
    exfalso. apply No. rewrite Forall_forall in Hall. apply (Hall r Hr).
Qed.

(** X4. [load_data] returns a table exactly when the lambda raises on no
    [size] and no row that passes the two [dropna] has a text for a price.
    It raises ValueError exactly when the lambda raises on some [size],
    whatever the other fields of that row, and TypeError exactly when the
    lambda raises nowhere and a row with a text price reaches the
    division; it raises nothing else. *)
Theorem X4_load_data_returns_iff_no_row_raises (df : list raw_row) :
  ((exists out, load_data df = Ok out)
   <-> Forall (fun r => (exists b, derive_bhk (raw_size r) = Ok b)
                        /\ reaches_division r && text_price r = false) df)
  /\ (load_data df = Raise ValueError
      <-> Exists (fun r => derive_bhk (raw_size r) = Raise ValueError) df)
  /\ (load_data df = Raise TypeError
      <-> Forall (fun r => exists b, derive_bhk (raw_size r) = Ok b) df
          /\ Exists (fun r => reaches_division r && text_price r = true) df)
  /\ (forall e, load_data df = Raise e -> e = ValueError \/ e = TypeError).
Proof.
  split; [|split; [|split]].
  - split.
    + intros [out E]. eapply load_data_ok_rows; eassumption.
    + intros H. destruct (load_data df) as [out|e] eqn:E; [eauto|].
      exfalso. rewrite Forall_forall in H.
      destruct (load_data_raise_inv df e E) as [(_ & Hex)|(_ & _ & Hex)];
        apply Exists_exists in Hex as (r & Hr & Hbad);
        destruct (H r Hr) as [[b Hb] Hgood]; congruence.
  - split; [|apply load_data_value_error].
    intros E.
    destruct (load_data_raise_inv df _ E) as [(_ & Hex)|(Hne & _)];
      [exact Hex | discriminate].
  - split.
    + intros E.
      destruct (load_data_raise_inv df _ E) as [(Hne & _)|(_ & H)];
        [discriminate | exact H].
    + intros [Hok Hex].
      destruct (load_data df) as [out|e] eqn:E.
      * exfalso. pose proof (load_data_ok_rows df out E) as H.
        rewrite Forall_forall in H.
        apply Exists_exists in Hex as (r & Hr & Hbad).
        destruct (H r Hr) as [_ Hgood]. congruence.
      * destruct (load_data_raise_inv df e E) as [(_ & Hv)|(-> & _)];
          [|reflexivity].
        exfalso. rewrite Forall_forall in Hok.
        apply Exists_exists in Hv as (r & Hr & Hbad).
        destruct (Hok r Hr) as [b Hb]. congruence.
  - intros e E.
    destruct (load_data_raise_inv df e E) as [(-> & _)|(-> & _)]; auto.
Qed.

Lemma X4_witness :
  (exists out, load_data scenario = Ok out)
  /\ load_data text_price_table = Raise TypeError.
Proof.
  split.
  - apply (proj1 (X4_load_data_returns_iff_no_row_raises scenario)).
    constructor; [split; [exists (BInt 2)|]; reflexivity|].
    constructor; [split; [exists BNaN|]; reflexivity | constructor].
  - apply (proj1 (proj2 (proj2 (X4_load_data_returns_iff_no_row_raises
                                  text_price_table)))).
    split.
    + constructor; [exists (BInt 2); reflexivity | constructor].
    + constructor. vm_compute. reflexivity.
Defined.

(** X5. A malformed size anywhere aborts the load: if the part before
    the first space of some bedroom-mentioning [size] is no integer for
    [int()], [load_data] raises ValueError and returns no table, even when
    that row has no price, location or usable total_sqft and would have
    been dropped. *)
Theorem X5_one_malformed_size_aborts
        (df : list raw_row) (r : raw_row) (e : exn) :
  In r df ->
  mentions_bedrooms (raw_size r) = true ->
  py_int (before_first " " (py_str (raw_size r))) = Raise e ->
  load_data df = Raise ValueError.
Proof.
  intros Hr Hm Hi.
  apply load_data_value_error, Exists_exists.
  exists r. split; [exact Hr|].
  unfold derive_bhk. destruct (raw_size r) as [s|]; [|discriminate].
  simpl in Hm, Hi. rewrite Hm, item0_split. simpl.
  rewrite Hi. simpl. f_equal. eapply py_int_raises; eassumption.
Qed.

Lemma X5_witness :
  load_data [ mk_raw CNaN (CStr "Four BHK") QNaN (PFloat F64.nan) CNaN;
              mk_raw (CStr "Plot") (CStr "2 BHK") (QStr "1200")
                     (PFloat (F64.of_Z 50)) (CStr "X") ]
  = Raise ValueError.
Proof.
  apply (X5_one_malformed_size_aborts _
           (mk_raw CNaN (CStr "Four BHK") QNaN (PFloat F64.nan) CNaN) ValueError).
  - left. reflexivity.
  - reflexivity.
  - vm_compute. reflexivity.
Defined.

(** ** More on [clean_sqft] *)

Lemma before_first_none (c : ascii) (s : string) :
  has_char c s = false -> before_first c s = s.
Proof.
  induction s as [|d t IH]; simpl; intros H; [reflexivity|].
  apply orb_false_iff in H as [Hd Ht]. rewrite Hd, (IH Ht). reflexivity.
Qed.

Lemma before_first_app (c : ascii) (a b : string) :
  has_char c a = false -> before_first c (a ++ String c b) = a.
Proof.
  induction a as [|d t IH]; cbn [append before_first has_char]; intros H.
  - rewrite Ascii.eqb_refl. reflexivity.
  - apply orb_false_iff in H as [Hd Ht]. rewrite Hd, (IH Ht). reflexivity.
Qed.

(** X6. A leading space makes a plain total_sqft missing: the part before
    the first space is then empty, and [float('')] fails, although
    [float()] itself would have skipped the space. *)
Theorem X6_leading_space_is_missing (s : string) :
  has_char "-" s = false ->
  clean_sqft (QStr (String " " s)) = F64.nan.
Proof.
  intros H. rewrite clean_sqft_plain by (simpl; exact H).
  reflexivity.
Qed.

Lemma X6_witness :
  clean_sqft (QStr " 1200") = F64.nan /\ py_float " 1200" = Ok (F64.of_Z 1200).
Proof.
  split.
  - apply (X6_leading_space_is_missing "1200"). reflexivity.
  - vm_compute. reflexivity.
Defined.

(** X7. Whatever follows the first space of a plain total_sqft is
    ignored: a text [tok rest] without hyphen is cleaned like its first
    token [tok] alone. *)
Theorem X7_text_after_first_space_ignored (tok rest : string) :
  has_char " " tok = false ->
  has_char "-" tok = false -> has_char "-" rest = false ->
  clean_sqft (QStr (tok ++ String " " rest)) = clean_sqft (QStr tok).
Proof.
  intros Hsp Ht Hr.
  rewrite !clean_sqft_plain.
  - simpl sqft_str. rewrite (before_first_app " " tok rest Hsp),
      (before_first_none " " tok Hsp). reflexivity.
  - simpl. exact Ht.
  - simpl. rewrite has_char_app. simpl. rewrite Ht, Hr. reflexivity.
Qed.

Lemma X7_witness :
  clean_sqft (QStr "34.46 Sq. Meter") = clean_sqft (QStr "34.46").
Proof.
  apply (X7_text_after_first_space_ignored "34.46" "Sq. Meter"); reflexivity.
Defined.

Lemma add_comm (x y : float) : F64.add x y = F64.add y x.
Proof.
  destruct x as [sx|sx| |sx mx ex], y as [sy|sy| |sy my ey];
    try reflexivity;
    try (destruct sx, sy; reflexivity).
  unfold F64.add, SFadd.
  rewrite (Z.min_comm ey ex), Z.add_comm. reflexivity.
Qed.

(** X8. The two ends of a range may be swapped: [a-b] and [b-a] are
    cleaned to the same value. *)
Theorem X8_range_ends_commute (a b : string) :
  has_char "-" a = false -> has_char "-" b = false ->
  clean_sqft (QStr (a ++ String "-" b)) = clean_sqft (QStr (b ++ String "-" a)).
Proof.
  intros Ha Hb.
  rewrite (clean_sqft_one_hyphen a b Ha Hb), (clean_sqft_one_hyphen b a Hb Ha).
  destruct (py_float (strip a)) as [fa|], (py_float (strip b)) as [fb|];
    try reflexivity.
  rewrite add_comm. reflexivity.
Qed.

Lemma X8_witness :
  clean_sqft (QStr "1200 - 1000") = clean_sqft (QStr "1000 - 1200").
Proof.
  apply (X8_range_ends_commute "1200 " " 1000"); reflexivity.
Defined.

(** ** The sign of price_per_sqft *)

Lemma round_aux_sign_or_nan (sx : bool) (mx ex : Z) (lx : SpecFloat.location) :
  F64.isnan (binary_round_aux F64.prec F64.emax sx mx ex lx) = true
  \/ F64.sign (binary_round_aux F64.prec F64.emax sx mx ex lx) = Some sx.
Proof.
  destruct (binary_round_aux_sign sx mx ex lx) as [H|H]; [right; exact H|].
  left. rewrite H. reflexivity.
Qed.

Lemma mul_sign (x y : float) (sx sy : bool) :
  F64.sign x = Some sx -> F64.sign y = Some sy ->
  F64.isnan (F64.mul x y) = true \/ F64.sign (F64.mul x y) = Some (xorb sx sy).
Proof.
  destruct x as [s1|s1| |s1 m1 e1], y as [s2|s2| |s2 m2 e2]; simpl;
    intros [= <-] [= <-]; auto.
  apply round_aux_sign_or_nan.
Qed.

Lemma div_sign (x y : float) (sx sy : bool) :
  F64.sign x = Some sx -> F64.sign y = Some sy ->
  F64.isnan (F64.div x y) = true \/ F64.sign (F64.div x y) = Some (xorb sx sy).
Proof.
  destruct x as [s1|s1| |s1 m1 e1], y as [s2|s2| |s2 m2 e2]; simpl;
    intros [= <-] [= <-]; auto.
  unfold F64.div, SFdiv.
  destruct (SFdiv_core_binary _ _ _ _ _ _) as [[mz ez] lz].
  apply round_aux_sign_or_nan.
Qed.

Lemma isnan_sign (x : float) : F64.isnan x = false -> exists s, F64.sign x = Some s.
Proof. destruct x; simpl; try discriminate; eauto. Qed.

Lemma of_Z_sign (z : Z) :
  F64.isnan (F64.of_Z z) = true \/ F64.sign (F64.of_Z z) = Some (z <? 0).
Proof.
  unfold F64.of_Z, binary_normalize.
  destruct z as [|p|p]; [right; reflexivity | |].
  - destruct (binary_round_sign false p 0) as [H|H];
      [right; exact H | left; rewrite H; reflexivity].
  - destruct (binary_round_sign true p 0) as [H|H];
      [right; exact H | left; rewrite H; reflexivity].
Qed.

Lemma wrap64_small (z : Z) : - 2 ^ 63 <= z < 2 ^ 63 -> wrap64 z = z.
Proof.
  intros H. unfold wrap64. rewrite Z.mod_small; lia.
Qed.

Lemma div_nan_l (y : float) : F64.div F64.nan y = F64.nan.
Proof. destruct y; reflexivity. Qed.

(** X9. Where total_sqft was a text, price_per_sqft never changes the sign
    of the price: on such a row of the cleaned table it is NaN or carries
    the sign bit of a float [price], and the sign of an integer [price]
    whose product with 100000 fits in 64 bits. *)
Theorem X9_price_per_sqft_has_sign_of_price
        (df : list raw_row) (out : list clean_row) (c : clean_row) :
  load_data df = Ok out -> In c out ->
  exists r,
    In r df /\ derived_from r c
    /\ forall s, raw_total_sqft r = QStr s ->
         match price (base (cols c)) with
         | PFloat f =>
             F64.isnan (price_per_sqft c) = true
             \/ F64.sign (price_per_sqft c) = F64.sign f
         | PInt n =>
             - 2 ^ 63 <= n * 100000 < 2 ^ 63 ->
             F64.isnan (price_per_sqft c) = true
             \/ F64.sign (price_per_sqft c) = Some (n <? 0)
         | PStr _ => False
         end.
Proof.
  intros E Hin.
  destruct (load_data_inv df out c E Hin) as (r & Hr & Hd & _ & Hcrit & _).
  exists r. split; [exact Hr|]. split; [exact Hd|].
  destruct Hd as (Hb & _ & Hc).
  intros s Hsq.
  split_critical Hcrit.
  assert (Hs : F64.sign (total_sqft (base (cols c))) = Some false).
  { apply not_negative_notnan; [|now apply negb_true_iff].
    rewrite Hb. simpl. rewrite Hsq. apply clean_sqft_not_negative. }
  unfold with_price_per_sqft, per_sqft in Hc.
  destruct (price (base (cols c))) as [n|f|t] eqn:Ep; cbn [bind] in Hc;
    [| |discriminate].
  - intros Hfit. injection Hc as Hc. apply (f_equal price_per_sqft) in Hc.
    cbn [price_per_sqft] in Hc. rewrite <- Hc, (wrap64_small _ Hfit).
    destruct (of_Z_sign (n * 100000)) as [Hn|Hz].
    + left. destruct (F64.of_Z (n * 100000)); try discriminate.
      change S754_nan with F64.nan. rewrite div_nan_l. reflexivity.
    + destruct (div_sign _ _ _ false Hz Hs) as [Hn|Hq]; [left; exact Hn|].
      right. rewrite Hq, xorb_false_r. f_equal.
      destruct (Z.ltb_spec (n * 100000) 0), (Z.ltb_spec n 0); try reflexivity; lia.
  - injection Hc as Hc. apply (f_equal price_per_sqft) in Hc.
    cbn [price_per_sqft] in Hc. rewrite <- Hc.
    destruct (isnan_sign f) as [sp Hp]; [now apply negb_true_iff|].
    destruct (mul_sign f (F64.of_Z 100000) sp false Hp eq_refl) as [Hn|Hm].
    + left. destruct (F64.mul _ _); try discriminate.
      change S754_nan with F64.nan. rewrite div_nan_l. reflexivity.
    + rewrite xorb_false_r in Hm.
      destruct (div_sign _ _ sp false Hm Hs) as [Hn|Hq]; [left; exact Hn|].
      right. rewrite xorb_false_r in Hq. rewrite Hp. exact Hq.
Qed.

Lemma X9_witness :
  exists r,
    In r scenario /\ derived_from r scenario_cleaned
    /\ forall s, raw_total_sqft r = QStr s ->
         match price (base (cols scenario_cleaned)) with
         | PFloat f =>
             F64.isnan (price_per_sqft scenario_cleaned) = true
             \/ F64.sign (price_per_sqft scenario_cleaned) = F64.sign f
         | PInt n =>
             - 2 ^ 63 <= n * 100000 < 2 ^ 63 ->
             F64.isnan (price_per_sqft scenario_cleaned) = true
             \/ F64.sign (price_per_sqft scenario_cleaned) = Some (n <? 0)
         | PStr _ => False
         end.
Proof.
  apply (X9_price_per_sqft_has_sign_of_price scenario [scenario_cleaned]).
  - vm_compute. reflexivity.
  - left. reflexivity.
Defined.

(** ** The selector and the dispatch together *)

(** X10. Every option that the selector offers reaches a branch: the
    dispatch adds exactly one header and one chart drawn from the cleaned
    table, and the header begins with the number of the chosen option.  So
    the silent no-op is out of reach from the user interface. *)
Theorem X10_every_option_draws_its_chart
        (df_clean : list clean_row) (selected_plot : string) (out : page) :
  In selected_plot plot_options ->
  exists h p,
    display_selected_plot df_clean selected_plot out
    = (out ++ [Header h; Pyplot p df_clean])%list
    /\ String.get 0 h = String.get 0 selected_plot.
Proof.
  unfold plot_options. simpl.
  intros [<-|[<-|[<-|[<-|[<-|[]]]]]]; eexists; eexists; split; reflexivity.
Qed.

Lemma X10_witness :
  exists h p,
    display_selected_plot sample_rows "3. Top 10 Locations by Count" []
    = ([] ++ [Header h; Pyplot p sample_rows])%list
    /\ String.get 0 h = String.get 0 "3. Top 10 Locations by Count".
Proof.
  apply (X10_every_option_draws_its_chart sample_rows).
  unfold plot_options. simpl. auto.
Defined.

(** X11. Whatever the selection, the dispatch only appends to the page,
    and what it appends holds at most one chart. *)
Theorem X11_at_most_one_chart
        (df_clean : list clean_row) (selected_plot : string) (out : page) :
  exists added,
    display_selected_plot df_clean selected_plot out = (out ++ added)%list
    /\ (List.length (charts added) <= 1)%nat.
Proof.
  unfold display_selected_plot.
  repeat match goal with
         | |- context [if ?b then _ else _] => destruct b
         end;
    try (eexists; split; [reflexivity | simpl; lia]).
  exists []. rewrite app_nil_r. split; [reflexivity | simpl; lia].
Qed.

(** ** Counting the values of a column *)

Lemma seen_spec (x : string) (seen : list string) :
  existsb (String.eqb x) seen = true <-> In x seen.
Proof.
  rewrite existsb_exists. split.
  - intros (y & Hy & E). apply String.eqb_eq in E. subst. exact Hy.
  - intros H. exists x. split; [exact H | apply String.eqb_refl].
Qed.

Lemma uniques_from_In (k : string) (xs seen : list string) :
  In k (uniques_from seen xs) <-> In k xs /\ ~ In k seen.
Proof.
  revert seen. induction xs as [|x rest IH]; intros seen; simpl.
  - tauto.
  - destruct (existsb (String.eqb x) seen) eqn:E.
    + apply seen_spec in E. rewrite IH. split.
      * intros [H1 H2]. auto.
      * intros [[<-|H1] H2]; [contradiction | auto].
    + assert (Hx : ~ In x seen)
        by (intros H; apply seen_spec in H; congruence).
      simpl. rewrite IH. simpl. split.
      * intros [<-|[H1 H2]]; [auto | split; [auto | tauto]].
      * intros [[<-|H1] H2]; [auto|].
        destruct (string_dec x k) as [->|Hne]; [auto | right; tauto].
Qed.

Lemma uniques_from_NoDup (xs seen : list string) : NoDup (uniques_from seen xs).
Proof.
  revert seen. induction xs as [|x rest IH]; intros seen; simpl.
  - constructor.
  - destruct (existsb (String.eqb x) seen); [apply IH|].
    constructor; [|apply IH].
    rewrite uniques_from_In. simpl. tauto.
Qed.

Lemma uniques_In (k : string) (xs : list string) : In k (uniques xs) <-> In k xs.
Proof. unfold uniques. rewrite uniques_from_In. simpl. tauto. Qed.

Lemma occurrences_cons (k x : string) (xs : list string) :
  occurrences k (x :: xs)
  = ((if String.eqb k x then 1 else 0) + occurrences k xs)%nat.
Proof. unfold occurrences. simpl. destruct (String.eqb k x); reflexivity. Qed.

Lemma occurrences_pos (k : string) (xs : list string) :
  In k xs -> (1 <= occurrences k xs)%nat.
Proof.
  induction xs as [|x rest IH]; simpl; [contradiction|].
  rewrite occurrences_cons. intros [->|H].
  - rewrite String.eqb_refl. lia.
  - specialize (IH H). lia.
Qed.

Lemma occurrences_present (k : string) (col : list cell) :
  occurrences k (present col) = count_cells k col.
Proof.
  unfold count_cells. induction col as [|x rest IH]; [reflexivity|].
  destruct x as [s|]; simpl.
  - rewrite occurrences_cons, IH. destruct (String.eqb k s); reflexivity.
  - exact IH.
Qed.

Lemma value_count_keys (col : list cell) :
  map fst (value_count col) = uniques (present col).
Proof.
  unfold value_count. rewrite map_map. simpl. apply map_id.
Qed.

Lemma value_count_In (col : list cell) (k : string) (n : nat) :
  In (k, n) (value_count col) <->
  In k (present col) /\ n = count_cells k col.
Proof.
  unfold value_count. rewrite in_map_iff. split.
  - intros (k' & [= <- <-] & H). rewrite uniques_In in H.
    split; [exact H | apply occurrences_present].
  - intros [H ->]. exists k. rewrite occurrences_present.
    split; [reflexivity | apply uniques_In, H].
Qed.

(** The indicator of [x] summed over keys without repetition is 1 when
    [x] is among them. *)
Lemma indicator_sum (x : string) (keys : list string) :
  NoDup keys -> In x keys ->
  list_sum (map (fun k => if String.eqb k x then 1 else 0)%nat keys) = 1%nat.
Proof.
  induction 1 as [|k keys Hk Hnd IH]; simpl; [contradiction|].
  intros [->|Hin].
  - rewrite String.eqb_refl.
    assert (Z0 : list_sum (map (fun k => if String.eqb k x then 1 else 0)%nat keys) = 0%nat).
    { clear IH Hnd. induction keys as [|k' keys IH]; [reflexivity|].
      simpl. destruct (String.eqb k' x) eqn:E.
      - apply String.eqb_eq in E. subst. exfalso. apply Hk. left. reflexivity.
      - apply IH. intros H. apply Hk. right. exact H. }
    rewrite Z0. reflexivity.
  - destruct (String.eqb k x) eqn:E.
    + apply String.eqb_eq in E. subst. contradiction.
    + simpl. apply IH, Hin.
Qed.

Lemma list_sum_map_add {A : Type} (f g : A -> nat) (l : list A) :
  list_sum (map (fun a => f a + g a)%nat l)
  = (list_sum (map f l) + list_sum (map g l))%nat.
Proof. induction l as [|a l IH]; simpl; [reflexivity | rewrite IH; lia]. Qed.

Lemma occurrences_sum (keys xs : list string) :
  NoDup keys -> (forall x, In x xs -> In x keys) ->
  list_sum (map (fun k => occurrences k xs) keys) = List.length xs.
Proof.
  intros Hnd. induction xs as [|x rest IH]; intros Hin.
  - clear Hnd Hin. induction keys as [|k keys IH]; [reflexivity | exact IH].
  - rewrite (map_ext _ (fun k => ((if String.eqb k x then 1 else 0)
                                   + occurrences k rest)%nat))
      by (intros k; apply occurrences_cons).
    rewrite list_sum_map_add, indicator_sum, IH.
    + reflexivity.
    + intros y Hy. apply Hin. right. exact Hy.
    + exact Hnd.
    + apply Hin. left. reflexivity.
Qed.

Lemma value_count_total (col : list cell) :
  list_sum (map snd (value_count col)) = List.length (present col).
Proof.
  unfold value_count. rewrite map_map. simpl.
  apply occurrences_sum.
  - apply uniques_from_NoDup.
  - intros x. apply uniques_In.
Qed.

Lemma present_length (col : list cell) :
  (List.length (present col) + List.length (filter isna col))%nat
  = List.length col.
Proof.
  induction col as [|x rest IH]; [reflexivity|].
  destruct x; simpl in *; lia.
Qed.

Lemma list_sum_Permutation (l l' : list nat) :
  Permutation l l' -> list_sum l = list_sum l'.
Proof. induction 1; simpl; lia. Qed.

(** ** Sorting by insertion *)

Lemma insert_desc_Permutation (a : string * nat) (l : list (string * nat)) :
  Permutation (insert_desc a l) (a :: l).
Proof.
  induction l as [|b rest IH]; simpl; [reflexivity|].
  destruct (snd a <? snd b)%nat; [|reflexivity].
  rewrite IH. apply perm_swap.
Qed.

Lemma insert_desc_sorted (a : string * nat) (l : list (string * nat)) :
  StronglySorted count_ge l -> StronglySorted count_ge (insert_desc a l).
Proof.
  induction 1 as [|b rest Hs IH Hb]; simpl.
  - constructor; constructor.
  - destruct (snd a <? snd b)%nat eqn:E.
    + apply Nat.ltb_lt in E. constructor; [exact IH|].
      apply (Permutation_Forall (x := a :: rest));
        [symmetry; apply insert_desc_Permutation|].
      constructor; [unfold count_ge; lia | exact Hb].
    + apply Nat.ltb_ge in E. constructor.
      * constructor; assumption.
      * constructor; [unfold count_ge; lia|].
        eapply Forall_impl; [|exact Hb].
        unfold count_ge. intros x Hx. lia.
Qed.

Lemma insertion_sort_sorts : sorts_descending insertion_sort.
Proof.
  intros l. induction l as [|a rest [IHp IHs]]; simpl.
  - split; constructor.
  - split.
    + rewrite insert_desc_Permutation. constructor. exact IHp.
    + apply insert_desc_sorted, IHs.
Qed.

Lemma StronglySorted_app_cross {A : Type} (R : A -> A -> Prop) (a b : list A) :
  StronglySorted R (a ++ b) -> forall x y, In x a -> In y b -> R x y.
Proof.
  induction a as [|h a IH]; simpl; intros Hs x y Hx Hy; [contradiction|].
  apply StronglySorted_inv in Hs as [Hs Hh].
  destruct Hx as [<-|Hx]; [|eauto].
  rewrite Forall_forall in Hh. apply Hh, in_or_app. right. exact Hy.
Qed.

Lemma StronglySorted_app_l {A : Type} (R : A -> A -> Prop) (a b : list A) :
  StronglySorted R (a ++ b) -> StronglySorted R a.
Proof.
  induction a as [|h a IH]; simpl; intros Hs; [constructor|].
  apply StronglySorted_inv in Hs as [Hs Hh].
  constructor; [auto|].
  rewrite Forall_forall in *. intros x Hx. apply Hh, in_or_app. left. exact Hx.
Qed.

Lemma present_In (k : string) (col : list cell) :
  In k (present col) <-> In (CStr k) col.
Proof.
  unfold present. rewrite in_flat_map. split.
  - intros (x & Hx & Hk). destruct x as [s|]; simpl in Hk; [|contradiction].
    destruct Hk as [<-|[]]. exact Hx.
  - intros H. exists (CStr k). split; [exact H | left; reflexivity].
Qed.

Lemma list_sum_firstn_le (n : nat) (l : list nat) :
  (list_sum (firstn n l) <= list_sum l)%nat.
Proof.
  rewrite <- (firstn_skipn n l) at 2. rewrite list_sum_app. lia.
Qed.

(** The rows that [load_data] returns all have a location. *)
Lemma load_data_locations_present (df : list raw_row) (out : list clean_row) :
  load_data df = Ok out -> filter isna (locations out) = [].
Proof.
  intros E.
  assert (H : Forall (fun c => isna (location (base (cols c))) = false) out).
  { apply Forall_forall. intros c Hc.
    destruct (load_data_inv df out c E Hc) as (_ & _ & _ & _ & Hcrit & _).
    split_critical Hcrit. unfold notna in *. now apply negb_true_iff. }
  clear E. unfold locations. induction H as [|c rest Hc _ IH]; [reflexivity|].
  simpl. rewrite Hc. exact IH.
Qed.

(** ** The two counting charts

    The properties hold for every way in which [sort_values] may break
    ties between equal counts. *)

Section CountingCharts.

Variable sort_values : list (string * nat) -> list (string * nat).
Hypothesis sort_ok : sorts_descending sort_values.

Lemma value_counts_In (col : list cell) (k : string) (n : nat) :
  In (k, n) (value_counts sort_values col) <->
  In (CStr k) col /\ n = count_cells k col.
Proof.
  unfold value_counts. rewrite <- present_In, <- value_count_In.
  destruct (sort_ok (value_count col)) as [Hp _].
  split; apply Permutation_in; [exact Hp | symmetry; exact Hp].
Qed.

Lemma value_counts_NoDup (col : list cell) :
  NoDup (map fst (value_counts sort_values col)).
Proof.
  destruct (sort_ok (value_count col)) as [Hp _].
  apply (Permutation_NoDup (l := map fst (value_count col))).
  - symmetry. apply Permutation_map, Hp.
  - rewrite value_count_keys. apply uniques_from_NoDup.
Qed.

Lemma value_counts_total (col : list cell) :
  (list_sum (map snd (value_counts sort_values col))
   + List.length (filter isna col))%nat
  = List.length col.
Proof.
  destruct (sort_ok (value_count col)) as [Hp _].
  rewrite (list_sum_Permutation _ (map snd (value_count col)))
    by (apply Permutation_map, Hp).
  rewrite value_count_total. apply present_length.
Qed.

Lemma firstn_NoDup {A : Type} (n : nat) (l : list A) :
  NoDup l -> NoDup (firstn n l).
Proof.
  intros H. rewrite <- (firstn_skipn n l) in H.
  eapply NoDup_app_remove_r. exact H.
Qed.

(** X12. The bar chart of locations has at most ten bars, with distinct
    labels and heights in descending order; the height of a bar is the
    number of rows of the cleaned table at that location, at least one. *)
Theorem X12_top_locations_bars (df_clean : list clean_row) :
  (List.length (top_locations sort_values df_clean) <= 10)%nat
  /\ NoDup (map fst (top_locations sort_values df_clean))
  /\ StronglySorted count_ge (top_locations sort_values df_clean)
  /\ forall k n,
       In (k, n) (top_locations sort_values df_clean) ->
       n = count_cells k (locations df_clean) /\ (1 <= n)%nat.
Proof.
  unfold top_locations. fold (locations df_clean).
  set (all := value_counts sort_values (locations df_clean)).
  split; [apply firstn_le_length|]. split; [|split].
  - rewrite <- firstn_map. apply firstn_NoDup, value_counts_NoDup.
  - apply (StronglySorted_app_l _ _ (skipn 10 all)).
    rewrite firstn_skipn. apply (sort_ok (value_count (locations df_clean))).
  - intros k n H.
    assert (Hall : In (k, n) all)
      by (rewrite <- (firstn_skipn 10 all); apply in_or_app; left; exact H).
    apply value_counts_In in Hall as [Hk ->]. split; [reflexivity|].
    rewrite <- occurrences_present. apply occurrences_pos, present_In, Hk.
Qed.

(** X13. The bars are the most frequent locations: a location of the
    cleaned table that has no bar occurs at most as often as every
    location that has one. *)
Theorem X13_top_locations_dominate
        (df_clean : list clean_row) (k k' : string) (n : nat) :
  In (k, n) (top_locations sort_values df_clean) ->
  In (CStr k') (locations df_clean) ->
  ~ In k' (map fst (top_locations sort_values df_clean)) ->
  (count_cells k' (locations df_clean) <= n)%nat.
Proof.
  unfold top_locations. fold (locations df_clean).
  set (all := value_counts sort_values (locations df_clean)).
  intros Hbar Hk' Hno.
  assert (Hin : In (k', count_cells k' (locations df_clean)) all)
    by (apply value_counts_In; auto).
  rewrite <- (firstn_skipn 10 all) in Hin.
  apply in_app_or in Hin as [Hin|Hin].
  - exfalso. apply Hno. apply (in_map fst) in Hin. exact Hin.
  - assert (Hs : StronglySorted count_ge (firstn 10 all ++ skipn 10 all))
      by (rewrite firstn_skipn; apply (sort_ok (value_count (locations df_clean)))).
    apply (StronglySorted_app_cross _ _ _ Hs _ _ Hbar Hin).
Qed.

(** X14. The pie of area types has one wedge for each area type, sized by
    the number of its rows; rows without an area type are left out, so the
    wedges add up to the rows that have one.  The palette of ten colours is
    cut down to the number of wedges, never extended. *)
Theorem X14_area_type_wedges (df_clean : list clean_row) :
  (list_sum (map snd (area_counts sort_values df_clean))
   + List.length (filter isna (area_types df_clean)))%nat
  = List.length df_clean
  /\ NoDup (map fst (area_counts sort_values df_clean))
  /\ (forall k n,
        In (k, n) (area_counts sort_values df_clean) <->
        In (CStr k) (area_types df_clean)
        /\ n = count_cells k (area_types df_clean))
  /\ forall (color : Type) (palette : list color),
       List.length palette = 10%nat ->
       List.length (pie_colors sort_values df_clean palette)
       = Nat.min 10 (List.length (area_counts sort_values df_clean)).
Proof.
  unfold area_counts, pie_colors. fold (area_types df_clean).
  split; [|split; [|split]].
  - rewrite value_counts_total. unfold area_types. apply length_map.
  - apply value_counts_NoDup.
  - intros k n. apply value_counts_In.
  - intros color palette Hp. rewrite length_firstn, Hp. apply Nat.min_comm.
Qed.

(** X15. Since [load_data] leaves no row without a location, the bars of
    a cleaned table never add up to more than its rows, and to exactly its
    rows when it has at most ten distinct locations. *)
Theorem X15_bars_cover_the_cleaned_table
        (df : list raw_row) (out : list clean_row) :
  load_data df = Ok out ->
  (list_sum (map snd (top_locations sort_values out)) <= List.length out)%nat
  /\ ((List.length (value_counts sort_values (locations out)) <= 10)%nat ->
      list_sum (map snd (top_locations sort_values out)) = List.length out).
Proof.
  intros E.
  pose proof (value_counts_total (locations out)) as T.
  rewrite (load_data_locations_present df out E) in T.
  unfold locations in T at 2. rewrite length_map in T. simpl in T.
  unfold top_locations. fold (locations out).
  split.
  - rewrite <- firstn_map.
    pose proof (list_sum_firstn_le 10
                  (map snd (value_counts sort_values (locations out)))).
    lia.
  - intros H. rewrite firstn_all2 by exact H. lia.
Qed.

End CountingCharts.

Lemma X12_witness :
  (List.length (top_locations insertion_sort sample_rows) <= 10)%nat
  /\ NoDup (map fst (top_locations insertion_sort sample_rows))
  /\ StronglySorted count_ge (top_locations insertion_sort sample_rows)
  /\ forall k n,
       In (k, n) (top_locations insertion_sort sample_rows) ->
       n = count_cells k (locations sample_rows) /\ (1 <= n)%nat.
Proof.
  exact (X12_top_locations_bars insertion_sort insertion_sort_sorts sample_rows).
Defined.

Lemma X13_witness :
  (count_cells "Electronic City" (locations crowded_rows) <= 2)%nat.
Proof.
  apply (X13_top_locations_dominate insertion_sort insertion_sort_sorts
           crowded_rows "Whitefield" "Electronic City" 2).
  - vm_compute. left. reflexivity.
  - vm_compute. do 11 right. left. reflexivity.
  - vm_compute. intros H.
    repeat (destruct H as [H|H]; [discriminate|]). exact H.
Defined.

Lemma X14_witness :
  (list_sum (map snd (area_counts insertion_sort sample_rows))
   + List.length (filter isna (area_types sample_rows)))%nat
  = List.length sample_rows
  /\ NoDup (map fst (area_counts insertion_sort sample_rows))
  /\ (forall k n,
        In (k, n) (area_counts insertion_sort sample_rows) <->
        In (CStr k) (area_types sample_rows)
        /\ n = count_cells k (area_types sample_rows))
  /\ forall (color : Type) (palette : list color),
       List.length palette = 10%nat ->
       List.length (pie_colors insertion_sort sample_rows palette)
       = Nat.min 10 (List.length (area_counts insertion_sort sample_rows)).
Proof.
  exact (X14_area_type_wedges insertion_sort insertion_sort_sorts sample_rows).
Defined.

Lemma X15_witness :
  (list_sum (map snd (top_locations insertion_sort [scenario_cleaned]))
   <= List.length [scenario_cleaned])%nat
  /\ ((List.length (value_counts insertion_sort (locations [scenario_cleaned]))
       <= 10)%nat ->
      list_sum (map snd (top_locations insertion_sort [scenario_cleaned]))
      = List.length [scenario_cleaned]).
Proof.
  apply (X15_bars_cover_the_cleaned_table insertion_sort insertion_sort_sorts
           scenario [scenario_cleaned]).
  vm_compute. reflexivity.
Defined.

(** ** The size text of the rows that are kept *)

Lemma derive_bhk_int_inv (x : cell) (n : Z) :
  derive_bhk x = Ok (BInt n) ->
  mentions_bedrooms x = true /\ py_int (before_first " " (py_str x)) = Ok n.
Proof.
  unfold derive_bhk. destruct x as [s|]; simpl; [|discriminate].
  destruct (_ || _); [|discriminate].
  rewrite item0_split. simpl.
  destruct (py_int _) as [m|e]; simpl; [|discriminate].
  intros [= <-]. auto.
Qed.

(** X16. Every row of the cleaned table has a size text that contains
    "BHK" or "Bedroom" and whose part before the first space is an integer
    below 10 for [int()]: a row whose size names neither word (a studio,
    "1 RK") is never kept. *)
Theorem X16_kept_rows_mention_bedrooms
        (df : list raw_row) (out : list clean_row) (c : clean_row) :
  load_data df = Ok out -> In c out ->
  exists s n,
    size (base (cols c)) = CStr s
    /\ (contains "BHK" s || contains "Bedroom" s) = true
    /\ py_int (before_first " " s) = Ok n
    /\ n < 10.
Proof.
  intros E Hin.
  destruct (load_data_inv df out c E Hin) as (r & _ & (Hb & Hd & _) & _ & Hcrit & Hlt).
  split_critical Hcrit.
  destruct (BHK (cols c)) as [n|] eqn:Eb; [|discriminate].
  destruct (derive_bhk_int_inv _ _ Hd) as [Hm Hi].
  rewrite Hb. simpl size.
  destruct (raw_size r) as [s|]; [|discriminate].
  exists s, n. simpl in Hlt. apply Z.ltb_lt in Hlt. auto.
Qed.

Lemma X16_witness :
  exists s n,
    size (base (cols scenario_cleaned)) = CStr s
    /\ (contains "BHK" s || contains "Bedroom" s) = true
    /\ py_int (before_first " " s) = Ok n
    /\ n < 10.
Proof.
  apply (X16_kept_rows_mention_bedrooms scenario [scenario_cleaned]).
  - vm_compute. reflexivity.
  - left. reflexivity.
Defined.
